(** * FITVA calorie tracker: the nutrition estimation and aggregation pipeline

    A shallow embedding of the route handlers and of the TDEE utility given in
    the technical implementation guide (app/api/nutrition/analyze/route.ts,
    app/api/meals/route.ts, app/api/nutrition/daily/route.ts,
    app/api/nutrition/insights/route.ts and lib/tdee.ts), with the properties
    the specification states about them.

    Conventions of the embedding.
    - In the handlers a JavaScript [number] is an exact rational ([Q]);
      equalities between numbers are stated with [==].  Values that are
      integral by construction (an [Int] column) are integers ([Z]).
    - The calculator of lib/tdee.ts is given as JavaScript evaluates it, over
      IEEE 754 binary64 with its [NaN] and its infinities (module
      [Binary64]): every product and sum is rounded to a double, [Math.round]
      works on that double, and a key read from an object literal finds the
      literal's own properties, then the built-ins every object inherits from
      [Object.prototype].  Module [Tdee] gives the same functions in exact
      arithmetic over the own keys of the tables, the reading in which the
      specification states its formulas.
    - An instant ([Date], [DateTime]) is its number of milliseconds since the
      epoch; local time is UTC.
    - Prisma's tables are finite maps and lists; the outcome of a call to the
      text-generation provider is an input of the handler that makes it, and
      the calls a handler makes are returned next to its response. *)

From Stdlib Require Import ZArith QArith Qround Qminmax Lqa Lia SpecFloat.
From Stdlib Require Import String List Sorting.Sorted Sorting.Permutation.
From stdpp Require Import gmap strings.
Import ListNotations.

Local Open Scope Z_scope.
Local Open Scope string_scope.

(** ** JavaScript numbers *)

Module Js.

Local Open Scope Q_scope.

(** Truthiness of a number: every number but zero. *)
Definition truthy (x : Q) : bool := negb (Qeq_bool x 0).

(** [v || d] where [v] is the outcome of a property read: [None] is
    [undefined]. *)
Definition or_else (v : option Q) (d : Q) : Q :=
  match v with
  | Some x => if truthy x then x else d
  | None => d
  end.

(** [v || d] on an optional [Int] column ([null] and [0] are falsy). *)
Definition or_elseZ (v : option Z) (d : Z) : Z :=
  match v with
  | Some x => if Z.eqb x 0 then d else x
  | None => d
  end.

(** [Math.round]: the nearest integer, a tie going towards plus infinity. *)
Definition Math_round (x : Q) : Z := Qfloor (x + (1 # 2)).

(** [Math.min] of two numbers. *)
Definition Math_min (x y : Q) : Q := if Qle_bool x y then x else y.

End Js.

(** ** lib/tdee.ts in exact arithmetic

    The numbers are rationals, nothing is rounded but by [Math.round], and the
    tables are read at their own keys. *)

Module Tdee.

Local Open Scope Q_scope.

Definition calculateBMR (weight height age : Q) (gender : string) : Q :=
  if String.eqb gender "male"
  then 10 * weight + 6.25 * height - 5 * age + 5
  else 10 * weight + 6.25 * height - 5 * age - 161.

Definition multipliers : gmap string Q :=
  {[ "sedentary" := 1.2;
     "light" := 1.375;
     "moderate" := 1.55;
     "active" := 1.725;
     "very_active" := 1.9 ]}.

Definition calculateTDEE (bmr : Q) (activityLevel : string) : Z :=
  Js.Math_round (bmr * Js.or_else (multipliers !! activityLevel) 1.375).

Definition adjustments : gmap string Q :=
  {[ "lose" := -500;
     "gain" := 500;
     "maintain" := 0 ]}.

Definition calculateTargetCalories (tdee : Q) (goal : string) : Z :=
  Js.Math_round (tdee + Js.or_else (adjustments !! goal) 0).

(** The activity table in the words of the specification. *)
Definition activity_factor (level : string) : Q :=
  if decide (level = "sedentary") then 1.2
  else if decide (level = "light") then 1.375
  else if decide (level = "moderate") then 1.55
  else if decide (level = "active") then 1.725
  else if decide (level = "very_active") then 1.9
  else 1.375.

(** The goal offsets in the words of the specification. *)
Definition goal_offset (goal : string) : Q :=
  if decide (goal = "lose") then -500
  else if decide (goal = "gain") then 500
  else if decide (goal = "maintain") then 0
  else 0.

End Tdee.

(** ** lib/tdee.ts over binary64

    The functions as JavaScript evaluates them. *)

Module Binary64.

Local Open Scope Z_scope.

Definition prec : Z := 53.
Definition emax : Z := 1024.

(** The double of an integer. *)
Definition ofZ (n : Z) : spec_float := binary_normalize prec emax n 0 false.

(** The double a decimal literal [n / d] denotes, [d] a power of ten: the
    correctly rounded quotient of two integers that are doubles themselves. *)
Definition decimal (n d : Z) : spec_float := SFdiv prec emax (ofZ n) (ofZ d).

Definition mul := SFmul prec emax.
Definition add := SFadd prec emax.
Definition sub := SFsub prec emax.

Definition truthy (x : spec_float) : bool :=
  match x with
  | S754_zero _ | S754_nan => false
  | _ => true
  end.

(** A zero or [m * 2^e]; not an infinity, not [NaN]. *)
Definition finite (x : spec_float) : bool :=
  match x with
  | S754_zero _ | S754_finite _ _ _ => true
  | _ => false
  end.

(** The exact value of a finite double. *)
Definition toQ (x : spec_float) : Q :=
  match x with
  | S754_finite s m e =>
      let v := match e with
               | Zneg p => Z.pos m # (2 ^ p)
               | _ => inject_Z (Z.pos m * 2 ^ e)
               end in
      if s then (- v)%Q else v
  | _ => 0%Q
  end.

(** The double of an integer that is not zero, given by its sign and its
    magnitude: the magnitude shifted to 53 bits when it has fewer. *)
Definition integer (negative : bool) (n : positive) : spec_float :=
  match 53 - Z.pos (Pos.size n) with
  | Zpos k => S754_finite negative (n * 2 ^ k) (Z.neg k)
  | _ => S754_finite negative n 0
  end.

(** [Math.round]: a double that is integral, infinite or not a number is
    returned as it is; [m * 2^e] with [e < 0] goes to the integer nearest to
    its value, a tie going towards plus infinity and a zero result keeping the
    sign of the argument. *)
Definition Math_round (x : spec_float) : spec_float :=
  match x with
  | S754_finite s m e =>
      if Z.leb 0 e then x
      else
        match Js.Math_round (toQ x) with
        | Z0 => S754_zero s
        | Zpos n => integer false n
        | Zneg n => integer true n
        end
  | _ => x
  end.

Definition calculateBMR (weight height age : spec_float) (gender : string)
  : spec_float :=
  if String.eqb gender "male"
  then add (sub (add (mul (ofZ 10) weight) (mul (decimal 625 100) height))
              (mul (ofZ 5) age)) (ofZ 5)
  else sub (sub (add (mul (ofZ 10) weight) (mul (decimal 625 100) height))
              (mul (ofZ 5) age)) (ofZ 161).

(** What the read [table[key]] of an object literal of numbers gives: a
    number of the literal, a built-in of [Object.prototype] (a function, or
    the prototype itself for [__proto__]), or [undefined]. *)
Inductive property :=
| Number (x : spec_float)
| Builtin
| Undefined.

(** The names every object inherits from [Object.prototype]. *)
Definition objectPrototype : list string :=
  ["constructor"; "__defineGetter__"; "__defineSetter__"; "hasOwnProperty";
   "__lookupGetter__"; "__lookupSetter__"; "isPrototypeOf";
   "propertyIsEnumerable"; "toString"; "valueOf"; "__proto__";
   "toLocaleString"].

(** [table[key]]: the own property, else the inherited one. *)
Definition get (own : gmap string spec_float) (key : string) : property :=
  match own !! key with
  | Some x => Number x
  | None => if bool_decide (key ∈ objectPrototype) then Builtin else Undefined
  end.

(** [v || d]: a built-in is truthy. *)
Definition or_else (v : property) (d : spec_float) : property :=
  match v with
  | Number x => if truthy x then Number x else Number d
  | Builtin => Builtin
  | Undefined => Number d
  end.

Definition multipliers : gmap string spec_float :=
  {[ "sedentary" := decimal 12 10;
     "light" := decimal 1375 1000;
     "moderate" := decimal 155 100;
     "active" := decimal 1725 1000;
     "very_active" := decimal 19 10 ]}.

(** [Math.round(bmr * (multipliers[activityLevel] || 1.375))]: the product of
    a number and a built-in is [NaN]. *)
Definition calculateTDEE (bmr : spec_float) (activityLevel : string)
  : spec_float :=
  match or_else (get multipliers activityLevel) (decimal 1375 1000) with
  | Number multiplier => Math_round (mul bmr multiplier)
  | _ => Math_round S754_nan
  end.

Definition adjustments : gmap string spec_float :=
  {[ "lose" := ofZ (-500);
     "gain" := ofZ 500;
     "maintain" := ofZ 0 ]}.

(** [Math.round(tdee + (adjustments[goal] || 0))]: the sum of a number and a
    built-in is a text, the number followed by the source of the built-in,
    which [Math.round] reads as [NaN]. *)
Definition calculateTargetCalories (tdee : spec_float) (goal : string)
  : spec_float :=
  match or_else (get adjustments goal) (ofZ 0) with
  | Number adjustment => Math_round (add tdee adjustment)
  | _ => S754_nan
  end.

(** The activity table in the words of the specification, its factors as
    doubles. *)
Definition activity_factor (level : string) : spec_float :=
  if decide (level = "sedentary") then decimal 12 10
  else if decide (level = "light") then decimal 1375 1000
  else if decide (level = "moderate") then decimal 155 100
  else if decide (level = "active") then decimal 1725 1000
  else if decide (level = "very_active") then decimal 19 10
  else decimal 1375 1000.

(** The goal offsets in the words of the specification, as doubles. *)
Definition goal_offset (goal : string) : spec_float :=
  if decide (goal = "lose") then ofZ (-500)
  else if decide (goal = "gain") then ofZ 500
  else if decide (goal = "maintain") then ofZ 0
  else ofZ 0.

End Binary64.

(** ** Dates *)

Module Time.

Definition msPerDay : Z := 86400000.

(** [d.setHours(0, 0, 0, 0)]: midnight of the day of [t]. *)
Definition startOfDay (t : Z) : Z := t - t mod msPerDay.

(** [d.setHours(23, 59, 59, 999)]: the last millisecond of the day of [t]. *)
Definition endOfDay (t : Z) : Z := startOfDay t + (msPerDay - 1).

(** [d.setDate(d.getDate() - n)]. *)
Definition minusDays (t n : Z) : Z := t - n * msPerDay.

End Time.

(** ** prisma/schema.prisma *)

(** The columns of [User] the handlers read; the credentials, the name and
    the bookkeeping dates play no part in them. *)
Module User.
Record t := {
  id : string;
  age : option Z;
  gender : option string;
  height : option Q;
  currentWeight : option Q;
  activityLevel : option string;
  goal : string;
  targetCalories : option Z
}.
End User.

Module Meal.
Record t := {
  id : string;
  userId : string;
  description : string;
  mealType : string;
  timestamp : Z;
  calories : Q;
  protein : Q;
  carbs : Q;
  fats : Q;
  fiber : option Q;
  sugar : option Q;
  sodium : option Q;
  createdAt : Z
}.
End Meal.

Module DailySummary.
Record t := {
  id : string;
  userId : string;
  date : Z;
  totalCalories : Q;
  totalProtein : Q;
  totalCarbs : Q;
  totalFats : Q;
  goalCalories : Z
}.
End DailySummary.

(** The tables.  [users] is keyed by [id]; [dailySummaries] is keyed by
    [(userId, date)], which is the table's unique constraint; [meals] keeps
    the rows in the order of their insertion. *)
Record Database := {
  users : gmap string User.t;
  meals : list Meal.t;
  dailySummaries : gmap (string * Z) DailySummary.t
}.

(** ** JSON values and the text-generation provider *)

#[local] Set Warnings "-register-all".

Inductive json :=
| JNull
| JBool (b : bool)
| JNum (x : Q)
| JStr (s : string)
| JArr (items : list json)
| JObj (fields : list (string * json)).

(** The prompt of a chat request, before it is rendered as text. *)
Inductive prompt :=
| AnalyzePrompt (description : string) (quantity : option string)
| InsightsPrompt (goal : string) (targetCalories : Z) (activityLevel : string)
    (days : list DailySummary.t).

Record chatRequest := {
  model : string;
  systemContent : string;
  userContent : prompt;
  jsonObject : bool;
  temperature : Q
}.

(** What [openai.chat.completions.create] does: it throws, or it returns a
    first choice whose message content is [null] or a text.  A text comes with
    the value [JSON.parse] reads from it, [None] when [JSON.parse] throws. *)
Inductive completion :=
| ApiError
| NullContent
| Content (text : string) (parsed : option json).

(** ** The environment of one request *)

Inductive prismaCall :=
| MealCreate
| MealFindMany
| UserFindUnique
| DailySummaryUpsert
| DailySummaryFindUnique
| DailySummaryFindMany.

(** [now] is the clock when the handler reads it for its day; the handler of
    meal creation has read it once before, when it built the meal and before
    it called the store, and [stamped] is the clock at that earlier read.
    [mealId] and [summaryId] are the identifiers [cuid()] would give to new
    rows, [fails] tells which calls to the store throw, and [reply] is the
    provider's answer to the request the handler may send. *)
Record env := {
  now : Z;
  stamped : Z;
  mealId : string;
  summaryId : string;
  fails : prismaCall -> bool;
  reply : completion
}.

(** ** Handlers: state, provider calls and exceptions *)

Module Handler.

Record world := { db : Database; sent : list chatRequest }.

Inductive result (A : Type) :=
| Returned (a : A)
| Thrown.
Arguments Returned {A} a.
Arguments Thrown {A}.

Definition M (A : Type) : Type := world -> result A * world.

Definition ret {A} (a : A) : M A := fun w => (Returned a, w).

Definition throw {A} : M A := fun w => (Thrown, w).

Definition bind {A B} (m : M A) (k : A -> M B) : M B :=
  fun w =>
    match m w with
    | (Returned a, w') => k a w'
    | (Thrown, w') => (Thrown, w')
    end.

(** [try { body } catch (error) { return onError }]. *)
Definition tryCatch {A} (body : M A) (onError : A) : world -> A * world :=
  fun w =>
    match body w with
    | (Returned a, w') => (a, w')
    | (Thrown, w') => (onError, w')
    end.

(** A value that may be absent where its absence throws. *)
Definition orThrow {A} (o : option A) : M A :=
  match o with
  | Some a => ret a
  | None => throw
  end.

End Handler.

Notation "'let*' x := m 'in' k" := (Handler.bind m (fun x => k))
  (at level 10, x name, m at level 100, k at level 200).
Notation "m ;;; k" := (Handler.bind m (fun _ => k))
  (at level 100, k at level 200, right associativity).

(** A [NextResponse.json]: a body with its status, or an error message with
    its status. *)
Inductive response (A : Type) :=
| Ok (status : Z) (body : A)
| Error (status : Z) (error : string).
Arguments Ok {A} status body.
Arguments Error {A} status error.

(** ** The Prisma client *)

Module Prisma.

Import Handler.

Definition withMeals (d : Database) (ms : list Meal.t) : Database :=
  {| users := users d; meals := ms; dailySummaries := dailySummaries d |}.

Definition withSummaries (d : Database)
    (ss : gmap (string * Z) DailySummary.t) : Database :=
  {| users := users d; meals := meals d; dailySummaries := ss |}.

Definition guard (e : env) (c : prismaCall) : M unit :=
  if fails e c then throw else ret tt.

(** [prisma.meal.create]: the row is appended; the foreign key to [User]
    makes the call throw when the user does not exist. *)
Definition meal_create (e : env) (m : Meal.t) : M Meal.t :=
  guard e MealCreate ;;;
  fun w =>
    match users (db w) !! Meal.userId m with
    | Some _ =>
        (Returned m,
         {| db := withMeals (db w) (meals (db w) ++ [m]); sent := sent w |})
    | None => (Thrown, w)
    end.

Definition user_findUnique (e : env) (uid : string) : M (option User.t) :=
  guard e UserFindUnique ;;;
  fun w => (Returned (users (db w) !! uid), w).

(** [prisma.dailySummary.upsert] on the unique key [(userId, date)]. *)
Definition dailySummary_upsert (e : env) (key : string * Z)
    (update : DailySummary.t -> DailySummary.t) (create : DailySummary.t)
  : M DailySummary.t :=
  guard e DailySummaryUpsert ;;;
  fun w =>
    let row :=
      match dailySummaries (db w) !! key with
      | Some d => update d
      | None => create
      end in
    (Returned row,
     {| db := withSummaries (db w) (<[key := row]> (dailySummaries (db w)));
        sent := sent w |}).

Definition dailySummary_findUnique (e : env) (key : string * Z)
  : M (option DailySummary.t) :=
  guard e DailySummaryFindUnique ;;;
  fun w => (Returned (dailySummaries (db w) !! key), w).

(** Insertion of a row in a list ordered by [leb]; [sortBy] is the stable
    sort it gives. *)
Fixpoint insertBy {A} (leb : A -> A -> bool) (x : A) (l : list A) : list A :=
  match l with
  | [] => [x]
  | y :: l' => if leb x y then x :: l else y :: insertBy leb x l'
  end.

Fixpoint sortBy {A} (leb : A -> A -> bool) (l : list A) : list A :=
  match l with
  | [] => []
  | x :: l' => insertBy leb x (sortBy leb l')
  end.

(** [prisma.meal.findMany({ where, orderBy })]. *)
Definition meal_findMany (e : env) (where_ : Meal.t -> bool)
    (orderBy : Meal.t -> Meal.t -> bool) : M (list Meal.t) :=
  guard e MealFindMany ;;;
  fun w => (Returned (sortBy orderBy (List.filter where_ (meals (db w)))), w).

(** [prisma.dailySummary.findMany({ where, orderBy })]. *)
Definition dailySummary_findMany (e : env) (where_ : DailySummary.t -> bool)
    (orderBy : DailySummary.t -> DailySummary.t -> bool)
  : M (list DailySummary.t) :=
  guard e DailySummaryFindMany ;;;
  fun w =>
    (Returned
       (sortBy orderBy
          (List.filter where_ (snd <$> map_to_list (dailySummaries (db w))))),
     w).

End Prisma.

(** [openai.chat.completions.create(request)] followed by the read of
    [completion.choices[0].message.content]: the request is recorded as sent,
    and the provider's answer decides the outcome. *)
Definition chatCompletion (e : env) (r : chatRequest) : Handler.M completion :=
  fun w =>
    let w' := {| Handler.db := Handler.db w;
                 Handler.sent := Handler.sent w ++ [r] |} in
    match reply e with
    | ApiError => (Handler.Thrown, w')
    | c => (Handler.Returned c, w')
    end.

(** ** app/api/nutrition/analyze/route.ts *)

Module Analyze.

Import Handler.

(** A request body of the right shape; [analyzeRequestSchema.parse] then
    checks [description: z.string().min(1)]. *)
Record request := { description : string; quantity : option string }.

Definition analyzeRequestSchema (b : request) : option request :=
  match description b with
  | "" => None
  | _ => Some b
  end.

Inductive confidence := high | medium | low.

Record nutrition := {
  calories : Q;
  protein : Q;
  carbs : Q;
  fats : Q;
  fiber : option Q;
  sugar : option Q;
  sodium : option Q;
  confidence_ : confidence;
  notes : option string
}.

(** The value of a key of a parsed object; of two fields with one key,
    [JSON.parse] keeps the later one. *)
Fixpoint field (k : string) (fields : list (string * json)) : option json :=
  match fields with
  | [] => None
  | (k', v) :: rest =>
      match field k rest with
      | Some v' => Some v'
      | None => if String.eqb k k' then Some v else None
      end
  end.

(** [z.number()] on a key of the object. *)
Definition number (k : string) (fields : list (string * json)) : option Q :=
  match field k fields with
  | Some (JNum x) => Some x
  | _ => None
  end.

(** [z.number().optional()]: an absent key is accepted, a value that is not
    a number is not. *)
Definition numberOptional (k : string) (fields : list (string * json))
  : option (option Q) :=
  match field k fields with
  | None => Some None
  | Some (JNum x) => Some (Some x)
  | Some _ => None
  end.

Definition stringOptional (k : string) (fields : list (string * json))
  : option (option string) :=
  match field k fields with
  | None => Some None
  | Some (JStr s) => Some (Some s)
  | Some _ => None
  end.

(** [z.enum(['high', 'medium', 'low'])]. *)
Definition confidenceEnum (k : string) (fields : list (string * json))
  : option confidence :=
  match field k fields with
  | Some (JStr s) =>
      if String.eqb s "high" then Some high
      else if String.eqb s "medium" then Some medium
      else if String.eqb s "low" then Some low
      else None
  | _ => None
  end.

(** [nutritionResponseSchema.parse]; [None] when it throws. *)
Definition nutritionResponseSchema (j : json) : option nutrition :=
  match j with
  | JObj fs =>
      match number "calories" fs, number "protein" fs, number "carbs" fs,
            number "fats" fs, numberOptional "fiber" fs,
            numberOptional "sugar" fs, numberOptional "sodium" fs,
            confidenceEnum "confidence" fs, stringOptional "notes" fs with
      | Some c, Some p, Some cb, Some f, Some fi, Some su, Some so, Some co,
        Some n =>
          Some {| calories := c; protein := p; carbs := cb; fats := f;
                  fiber := fi; sugar := su; sodium := so; confidence_ := co;
                  notes := n |}
      | _, _, _, _, _, _, _, _, _ => None
      end
  | _ => None
  end.

(** [$][{quantity ? ... : ''}]: an empty quantity is left out of the prompt. *)
Definition promptQuantity (q : option string) : option string :=
  match q with
  | Some "" => None
  | other => other
  end.

Definition analysisRequest (description : string) (quantity : option string)
  : chatRequest :=
  {| model := "gpt-4o-mini";
     systemContent := "You are a nutrition expert AI assistant. Analyze food descriptions and provide accurate nutritional information in JSON format. Always estimate calories, protein (g), carbohydrates (g), and fats (g) based on the food description and quantity provided.";
     userContent := AnalyzePrompt description (promptQuantity quantity);
     jsonObject := true;
     temperature := 0.3 |}.

(** The text of a completion; a [null] or empty content throws. *)
Definition responseText (c : completion) : M (option json) :=
  match c with
  | Content "" _ => throw
  | Content _ parsed => ret parsed
  | _ => throw
  end.

(** The response of the [catch] block. *)
Definition failure : response nutrition := Error 500 "Failed to analyze food".

Definition POST (body : option request) (e : env)
  : world -> response nutrition * world :=
  tryCatch
    (let* body := orThrow body in
     let* req := orThrow (analyzeRequestSchema body) in
     let* completion :=
       chatCompletion e (analysisRequest (description req) (quantity req)) in
     let* parsed := responseText completion in
     let* value := orThrow parsed in
     let* nutrition := orThrow (nutritionResponseSchema value) in
     ret (Ok 200 nutrition))
    failure.

End Analyze.

(** ** app/api/meals/route.ts *)

Module Meals.

Import Handler.

(** A request body of the right shape: [timestamp], when present, is the
    instant its ISO text denotes.  [createMealSchema.parse] then checks
    [description: z.string().min(1)] and the [mealType] enumeration. *)
Record request := {
  description : string;
  mealType : string;
  timestamp : option Z;
  calories : Q;
  protein : Q;
  carbs : Q;
  fats : Q;
  fiber : option Q;
  sugar : option Q;
  sodium : option Q
}.

Definition mealTypes : list string := ["breakfast"; "lunch"; "dinner"; "snack"].

Definition createMealSchema (b : request) : option request :=
  match description b with
  | "" => None
  | _ => if bool_decide (mealType b ∈ mealTypes) then Some b else None
  end.

Definition incrementBy (data : request) (d : DailySummary.t) : DailySummary.t :=
  {| DailySummary.id := DailySummary.id d;
     DailySummary.userId := DailySummary.userId d;
     DailySummary.date := DailySummary.date d;
     DailySummary.totalCalories := (DailySummary.totalCalories d + calories data)%Q;
     DailySummary.totalProtein := (DailySummary.totalProtein d + protein data)%Q;
     DailySummary.totalCarbs := (DailySummary.totalCarbs d + carbs data)%Q;
     DailySummary.totalFats := (DailySummary.totalFats d + fats data)%Q;
     DailySummary.goalCalories := DailySummary.goalCalories d |}.

(** The [data] of [prisma.meal.create]; a request without timestamp gets the
    clock of the moment the data are built. *)
Definition mealData (uid : string) (data : request) (e : env) : Meal.t :=
  {| Meal.id := mealId e;
     Meal.userId := uid;
     Meal.description := description data;
     Meal.mealType := mealType data;
     Meal.timestamp :=
       match timestamp data with
       | Some t => t
       | None => stamped e
       end;
     Meal.calories := calories data;
     Meal.protein := protein data;
     Meal.carbs := carbs data;
     Meal.fats := fats data;
     Meal.fiber := fiber data;
     Meal.sugar := sugar data;
     Meal.sodium := sodium data;
     Meal.createdAt := now e |}.

(** The [create] of [prisma.dailySummary.upsert]. *)
Definition summaryCreate (uid : string) (today : Z) (data : request)
    (user : option User.t) (e : env) : DailySummary.t :=
  {| DailySummary.id := summaryId e;
     DailySummary.userId := uid;
     DailySummary.date := today;
     DailySummary.totalCalories := calories data;
     DailySummary.totalProtein := protein data;
     DailySummary.totalCarbs := carbs data;
     DailySummary.totalFats := fats data;
     DailySummary.goalCalories :=
       Js.or_elseZ (user ≫= User.targetCalories) 2000 |}.

Definition POST (session : option string) (body : option request) (e : env)
  : world -> response (Meal.t * DailySummary.t) * world :=
  tryCatch
    (match session with
     | None => ret (Error 401 "Unauthorized")
     | Some uid =>
         let* body := orThrow body in
         let* data := orThrow (createMealSchema body) in
         let* meal := Prisma.meal_create e (mealData uid data e) in
         (* the clock is read again, after the meal is written *)
         let today := Time.startOfDay (now e) in
         let* user := Prisma.user_findUnique e uid in
         let* dailySummary :=
           Prisma.dailySummary_upsert e (uid, today)
             (incrementBy data)
             (summaryCreate uid today data user e) in
         ret (Ok 200 (meal, dailySummary))
     end)
    (Error 500 "Failed to create meal").

(** The [date] query parameter: absent or empty; a text that is no date, with
    which the query throws; or a text denoting an instant. *)
Inductive dateParam :=
| NoDate
| InvalidDate
| DateOf (t : Z).

(** A query parameter that is present and not empty. *)
Definition present (p : option string) : option string :=
  match p with
  | Some "" => None
  | other => other
  end.

Definition where_ (uid : string) (range : option (Z * Z))
    (mealType : option string) (m : Meal.t) : bool :=
  String.eqb (Meal.userId m) uid
  && match range with
     | Some (gte, lte) =>
         Z.leb gte (Meal.timestamp m) && Z.leb (Meal.timestamp m) lte
     | None => true
     end
  && match mealType with
     | Some ty => String.eqb (Meal.mealType m) ty
     | None => true
     end.

(** [orderBy: { timestamp: 'desc' }]. *)
Definition timestampDesc (a b : Meal.t) : bool :=
  Z.leb (Meal.timestamp b) (Meal.timestamp a).

Definition GET (session : option string) (date : dateParam)
    (mealType : option string) (e : env)
  : world -> response (list Meal.t) * world :=
  tryCatch
    (match session with
     | None => ret (Error 401 "Unauthorized")
     | Some uid =>
         let* range :=
           match date with
           | NoDate => ret None
           | InvalidDate => throw
           | DateOf t => ret (Some (Time.startOfDay t, Time.endOfDay t))
           end in
         let* meals :=
           Prisma.meal_findMany e (where_ uid range (present mealType))
             timestampDesc in
         ret (Ok 200 meals)
     end)
    (Error 500 "Failed to fetch meals").

End Meals.

(** ** app/api/nutrition/daily/route.ts *)

Module Daily.

Import Handler.

(** [dailySummary || { totalCalories: 0, ..., goalCalories: ... }]: the stored
    row, or the literal with zeroed totals. *)
Inductive summary :=
| Stored (row : DailySummary.t)
| Zeroed (goalCalories : Z).

Definition totalCalories (s : summary) : Q :=
  match s with
  | Stored row => DailySummary.totalCalories row
  | Zeroed _ => 0
  end.

Definition totalProtein (s : summary) : Q :=
  match s with
  | Stored row => DailySummary.totalProtein row
  | Zeroed _ => 0
  end.

Definition totalCarbs (s : summary) : Q :=
  match s with
  | Stored row => DailySummary.totalCarbs row
  | Zeroed _ => 0
  end.

Definition totalFats (s : summary) : Q :=
  match s with
  | Stored row => DailySummary.totalFats row
  | Zeroed _ => 0
  end.

Definition summaryGoal (s : summary) : Z :=
  match s with
  | Stored row => DailySummary.goalCalories row
  | Zeroed g => g
  end.

(** The response spreads [summary] and adds or replaces three keys. *)
Record body := {
  spread : summary;
  remaining : Q;
  percentage : Q;
  goalCalories : Z
}.

Definition GET (session : option string) (dateParam : Meals.dateParam)
    (e : env) : world -> response body * world :=
  tryCatch
    (match session with
     | None => ret (Error 401 "Unauthorized")
     | Some uid =>
         let date :=
           match dateParam with
           | Meals.DateOf t => Some (Time.startOfDay t)
           | Meals.NoDate => Some (Time.startOfDay (now e))
           | Meals.InvalidDate => None
           end in
         let* user := Prisma.user_findUnique e uid in
         let* date := orThrow date in
         let* dailySummary := Prisma.dailySummary_findUnique e (uid, date) in
         let summary :=
           match dailySummary with
           | Some row => Stored row
           | None => Zeroed (Js.or_elseZ (user ≫= User.targetCalories) 2000)
           end in
         let remaining :=
           (inject_Z (Js.or_elseZ (Some (summaryGoal summary)) 0)
            - totalCalories summary)%Q in
         let percentage :=
           if Z.eqb (summaryGoal summary) 0 then 0%Q
           else (totalCalories summary / inject_Z (summaryGoal summary) * 100)%Q in
         ret (Ok 200
                {| spread := summary;
                   remaining := remaining;
                   percentage := Js.Math_min percentage 100;
                   goalCalories :=
                     Js.or_elseZ (Some (summaryGoal summary))
                       (Js.or_elseZ (user ≫= User.targetCalories) 2000) |})
     end)
    (Error 500 "Failed to fetch daily summary").

End Daily.

(** ** app/api/nutrition/insights/route.ts *)

Module Insights.

Import Handler.

Inductive body :=
| Message (message : string) (insights : list json)
| Generated (insights : json).

(** [s || d] on an optional text. *)
Definition or_elseS (s : option string) (d : string) : string :=
  match s with
  | Some "" | None => d
  | Some v => v
  end.

Definition timestampAsc (a b : Meal.t) : bool :=
  Z.leb (Meal.timestamp a) (Meal.timestamp b).

Definition dateAsc (a b : DailySummary.t) : bool :=
  Z.leb (DailySummary.date a) (DailySummary.date b).

Definition insightsRequest (user : option User.t) (days : list DailySummary.t)
  : chatRequest :=
  {| model := "gpt-4o-mini";
     systemContent := "You are a nutrition expert AI assistant. Analyze eating patterns and provide actionable, personalized diet recommendations.";
     userContent :=
       InsightsPrompt
         (or_elseS (User.goal <$> user) "maintain")
         (Js.or_elseZ (user ≫= User.targetCalories) 2000)
         (or_elseS (user ≫= User.activityLevel) "moderate")
         days;
     jsonObject := true;
     temperature := 0.7 |}.

Definition GET (session : option string) (e : env)
  : world -> response body * world :=
  tryCatch
    (match session with
     | None => ret (Error 401 "Unauthorized")
     | Some uid =>
         let sevenDaysAgo := Time.startOfDay (Time.minusDays (now e) 7) in
         let* meals :=
           Prisma.meal_findMany e
             (fun m => String.eqb (Meal.userId m) uid
                       && Z.leb sevenDaysAgo (Meal.timestamp m))
             timestampAsc in
         let* dailySummaries :=
           Prisma.dailySummary_findMany e
             (fun d => String.eqb (DailySummary.userId d) uid
                       && Z.leb sevenDaysAgo (DailySummary.date d))
             dateAsc in
         let* user := Prisma.user_findUnique e uid in
         if Nat.ltb (length meals) 5 then
           ret (Ok 200
                  (Message
                     "Not enough data yet. Log at least 5 meals to get insights."
                     []))
         else
           let* completion :=
             chatCompletion e (insightsRequest user dailySummaries) in
           let* parsed := Analyze.responseText completion in
           let* insights := orThrow parsed in
           ret (Ok 200 (Generated insights))
     end)
    (Error 500 "Failed to generate insights").

End Insights.

(** ** What the specification says of the stored data *)

Module Aggregate.

Local Open Scope Q_scope.

(** The meals of a user whose timestamp falls on the day that starts at
    [day]. *)
Definition mealsOn (d : Database) (uid : string) (day : Z) : list Meal.t :=
  List.filter
    (fun m => String.eqb (Meal.userId m) uid
              && Z.eqb (Time.startOfDay (Meal.timestamp m)) day)
    (meals d).

(** The sum of a macro field over a list of meals. *)
Definition total (f : Meal.t -> Q) (ms : list Meal.t) : Q :=
  fold_right (fun m acc => f m + acc) 0 ms.

(** The totals on record for a user and a day: those of the [DailySummary]
    row, or zero when there is none. *)
Definition recorded (f : DailySummary.t -> Q) (d : Database) (uid : string)
    (day : Z) : Q :=
  match dailySummaries d !! (uid, day) with
  | Some row => f row
  | None => 0
  end.

(** The four totals of a user's day are the sums over that day's meals. *)
Definition reflected (d : Database) (uid : string) (day : Z) : Prop :=
  recorded DailySummary.totalCalories d uid day
    == total Meal.calories (mealsOn d uid day)
  /\ recorded DailySummary.totalProtein d uid day
    == total Meal.protein (mealsOn d uid day)
  /\ recorded DailySummary.totalCarbs d uid day
    == total Meal.carbs (mealsOn d uid day)
  /\ recorded DailySummary.totalFats d uid day
    == total Meal.fats (mealsOn d uid day).

(** The invariant of the data model: every user's every day is reflected. *)
Definition consistent (d : Database) : Prop :=
  forall uid t, reflected d uid (Time.startOfDay t).

(** Every stored summary has a goal that is not zero. *)
Definition goalsSet (d : Database) : Prop :=
  forall key row,
    dailySummaries d !! key = Some row -> DailySummary.goalCalories row <> 0%Z.

(** A meal is selected by a user's filters when it is the user's, falls on
    the day of the date filter if there is one, and has the meal type of the
    type filter if there is one. *)
Definition selected (uid : string) (date : option Z) (mealType : option string)
    (m : Meal.t) : bool :=
  String.eqb (Meal.userId m) uid
  && match date with
     | Some t => Z.eqb (Time.startOfDay (Meal.timestamp m)) (Time.startOfDay t)
     | None => true
     end
  && match mealType with
     | Some ty => String.eqb (Meal.mealType m) ty
     | None => true
     end.

(** Descending by timestamp. *)
Definition newerFirst (a b : Meal.t) : Prop :=
  (Meal.timestamp b <= Meal.timestamp a)%Z.

End Aggregate.

(** ** Conditions on a request *)

(** No call to the store throws during the request. *)
Definition storeUp (e : env) : Prop := forall c, fails e c = false.

(** The date filter a [date] query parameter stands for. *)
Definition dateFilter (p : Meals.dateParam) : option Z :=
  match p with
  | Meals.DateOf t => Some t
  | _ => None
  end.

(** The day a [date] query parameter asks for: the parameter's own day, or
    today when there is none. *)
Definition requestedDay (p : Meals.dateParam) (e : env) : Z :=
  match p with
  | Meals.DateOf t => Time.startOfDay t
  | _ => Time.startOfDay (now e)
  end.

(** ** Sample data *)

Module Sample.

Definition alice : User.t :=
  {| User.id := "u1"; User.age := Some 30; User.gender := Some "male";
     User.height := Some 180%Q; User.currentWeight := Some 80%Q;
     User.activityLevel := Some "moderate"; User.goal := "lose";
     User.targetCalories := Some 2278 |}.

(** A user who has not set a target. *)
Definition bob : User.t :=
  {| User.id := "u2"; User.age := None; User.gender := None;
     User.height := None; User.currentWeight := None;
     User.activityLevel := None; User.goal := "maintain";
     User.targetCalories := None |}.

(** 2023-11-14, 00:00 and 12:00 UTC, and 12:00 two days before. *)
Definition midnight : Z := 1699920000000.
Definition noon : Z := 1699963200000.
Definition noonTwoDaysBefore : Z := 1699790400000.

Definition noFailure : prismaCall -> bool := fun _ => false.

Definition upsertFails : prismaCall -> bool :=
  fun c => match c with DailySummaryUpsert => true | _ => false end.

Definition atNoon (failing : prismaCall -> bool) (answer : completion) : env :=
  {| now := noon; stamped := noon; mealId := "m1"; summaryId := "s1";
     fails := failing; reply := answer |}.

Definition registered : Database :=
  {| users := {[ "u1" := alice; "u2" := bob ]};
     meals := [];
     dailySummaries := ∅ |}.

Definition fresh : Handler.world :=
  {| Handler.db := registered; Handler.sent := [] |}.

Definition oatmeal (at_ : option Z) : Meals.request :=
  {| Meals.description := "Oatmeal with banana";
     Meals.mealType := "breakfast";
     Meals.timestamp := at_;
     Meals.calories := 500; Meals.protein := 20; Meals.carbs := 80;
     Meals.fats := 10;
     Meals.fiber := None; Meals.sugar := None; Meals.sodium := None |}.

(** A day on which alice has eaten more than her goal. *)
Definition feast : DailySummary.t :=
  {| DailySummary.id := "s0"; DailySummary.userId := "u1";
     DailySummary.date := midnight;
     DailySummary.totalCalories := 3000; DailySummary.totalProtein := 100;
     DailySummary.totalCarbs := 400; DailySummary.totalFats := 90;
     DailySummary.goalCalories := 2278 |}.

Definition afterFeast : Handler.world :=
  {| Handler.db :=
       {| users := {[ "u1" := alice; "u2" := bob ]};
          meals := [];
          dailySummaries := {[ ("u1", midnight) := feast ]} |};
     Handler.sent := [] |}.

Definition entry (id uid type : string) (at_ : Z) (kcal : Q) : Meal.t :=
  {| Meal.id := id; Meal.userId := uid; Meal.description := "meal";
     Meal.mealType := type; Meal.timestamp := at_;
     Meal.calories := kcal; Meal.protein := 20; Meal.carbs := 50;
     Meal.fats := 10;
     Meal.fiber := None; Meal.sugar := None; Meal.sodium := None;
     Meal.createdAt := at_ |}.

(** Three meals of alice, on two days, and one of bob. *)
Definition diary : Handler.world :=
  {| Handler.db :=
       {| users := {[ "u1" := alice; "u2" := bob ]};
          meals :=
            [ entry "a" "u1" "breakfast" noonTwoDaysBefore 400;
              entry "b" "u1" "breakfast" (noon - 14400000) 500;
              entry "c" "u2" "dinner" (noon - 7200000) 900;
              entry "d" "u1" "lunch" (noon - 3600000) 700 ];
          dailySummaries := ∅ |};
     Handler.sent := [] |}.

End Sample.

(** ** Requests in sequence, and what the store keeps *)

Module Journal.

(** One request to create a meal: who sends it, what it carries, and the
    environment it is served in. *)
Record creation := {
  session : option string;
  body : option Meals.request;
  served : env
}.

(** The world after serving the requests one after the other. *)
Fixpoint replay (rs : list creation) (w : Handler.world) : Handler.world :=
  match rs with
  | [] => w
  | r :: rest =>
      replay rest (snd (Meals.POST (session r) (body r) (served r) w))
  end.

(** The timestamp of the meal a request stores, the one it carries or else
    the clock when the meal was built, falls on the day the handler reads
    after the meal is written. *)
Definition datedToday (r : creation) : Prop :=
  forall b,
    body r = Some b ->
    Time.startOfDay
      match Meals.timestamp b with
      | Some t => t
      | None => stamped (served r)
      end
    = Time.startOfDay (now (served r)).

(** The two calls that follow the meal write do not throw. *)
Definition summaryCallsUp (e : env) : Prop :=
  fails e UserFindUnique = false /\ fails e DailySummaryUpsert = false.

(** Every summary is stored under its own user and date, and its date is a
    midnight. *)
Definition keyed (d : Database) : Prop :=
  forall uid day row,
    dailySummaries d !! (uid, day) = Some row ->
    DailySummary.userId row = uid
    /\ DailySummary.date row = day
    /\ Time.startOfDay day = day.

(** The four ways the handler of meal creation ends. *)
Inductive outcome (session : option string) (body : option Meals.request)
    (e : env) (w : Handler.world)
  : response (Meal.t * DailySummary.t) * Handler.world -> Prop :=
| Unauthorized :
    session = None ->
    outcome session body e w (Error 401 "Unauthorized", w)
| Refused uid :
    session = Some uid ->
    body ≫= Meals.createMealSchema = None
    \/ fails e MealCreate = true
    \/ users (Handler.db w) !! uid = None ->
    outcome session body e w (Error 500 "Failed to create meal", w)
| Orphaned uid b data u :
    session = Some uid ->
    body = Some b ->
    Meals.createMealSchema b = Some data ->
    fails e MealCreate = false ->
    users (Handler.db w) !! uid = Some u ->
    fails e UserFindUnique = true \/ fails e DailySummaryUpsert = true ->
    outcome session body e w
      (Error 500 "Failed to create meal",
       {| Handler.db :=
            {| users := users (Handler.db w);
               meals := meals (Handler.db w) ++ [Meals.mealData uid data e];
               dailySummaries := dailySummaries (Handler.db w) |};
          Handler.sent := Handler.sent w |})
| Stored uid b data u :
    session = Some uid ->
    body = Some b ->
    Meals.createMealSchema b = Some data ->
    fails e MealCreate = false ->
    users (Handler.db w) !! uid = Some u ->
    fails e UserFindUnique = false ->
    fails e DailySummaryUpsert = false ->
    let today := Time.startOfDay (now e) in
    let row :=
      match dailySummaries (Handler.db w) !! (uid, today) with
      | Some old => Meals.incrementBy data old
      | None => Meals.summaryCreate uid today data (Some u) e
      end in
    outcome session body e w
      (Ok 200 (Meals.mealData uid data e, row),
       {| Handler.db :=
            {| users := users (Handler.db w);
               meals := meals (Handler.db w) ++ [Meals.mealData uid data e];
               dailySummaries :=
                 <[(uid, today) := row]> (dailySummaries (Handler.db w)) |};
          Handler.sent := Handler.sent w |}).

End Journal.

(** ** More sample data *)

Module Scenario.

Definition quiet : env := Sample.atNoon Sample.noFailure ApiError.

(** The same clock three hours later. *)
Definition later : env :=
  {| now := Sample.noon + 10800000; stamped := Sample.noon + 10800000;
     mealId := "m2"; summaryId := "s2";
     fails := Sample.noFailure; reply := ApiError |}.

(** A request served around the midnight that starts 2023-11-14: the meal
    is built one millisecond before it, and the store has answered, and the
    clock is read again, four milliseconds after it. *)
Definition acrossMidnight : env :=
  {| now := Sample.midnight + 4; stamped := Sample.midnight - 1;
     mealId := "m3"; summaryId := "s3";
     fails := Sample.noFailure; reply := ApiError |}.

Definition salad : Meals.request :=
  {| Meals.description := "Chicken salad";
     Meals.mealType := "lunch";
     Meals.timestamp := None;
     Meals.calories := 650; Meals.protein := 45; Meals.carbs := 30;
     Meals.fats := 35;
     Meals.fiber := Some 6%Q; Meals.sugar := None; Meals.sodium := None |}.

(** A request that the schema refuses: no description. *)
Definition nameless : Meals.request :=
  {| Meals.description := "";
     Meals.mealType := "lunch";
     Meals.timestamp := None;
     Meals.calories := 100; Meals.protein := 1; Meals.carbs := 1;
     Meals.fats := 1;
     Meals.fiber := None; Meals.sugar := None; Meals.sodium := None |}.

(** Alice logs breakfast at noon and lunch three hours later; between the
    two, a request without session and a request without description. *)
Definition day : list Journal.creation :=
  [ {| Journal.session := Some "u1";
       Journal.body := Some (Sample.oatmeal None);
       Journal.served := quiet |};
    {| Journal.session := None;
       Journal.body := Some salad;
       Journal.served := later |};
    {| Journal.session := Some "u1";
       Journal.body := Some nameless;
       Journal.served := later |};
    {| Journal.session := Some "u1";
       Journal.body := Some salad;
       Journal.served := later |} ].

(** The world once alice has logged her breakfast. *)
Definition afterBreakfast : Handler.world :=
  snd (Meals.POST (Some "u1") (Some (Sample.oatmeal None)) quiet Sample.fresh).

Definition summaryOf (id uid : string) (day : Z) (kcal : Q) : DailySummary.t :=
  {| DailySummary.id := id; DailySummary.userId := uid;
     DailySummary.date := day;
     DailySummary.totalCalories := kcal; DailySummary.totalProtein := 90;
     DailySummary.totalCarbs := 200; DailySummary.totalFats := 70;
     DailySummary.goalCalories := 2278 |}.

(** Five meals of alice in the last days, with summaries of hers of today, of
    two days ago and of ten days ago, and one of bob. *)
Definition busy : Handler.world :=
  {| Handler.db :=
       {| users := {[ "u1" := Sample.alice; "u2" := Sample.bob ]};
          meals :=
            [ Sample.entry "a" "u1" "breakfast" Sample.noonTwoDaysBefore 400;
              Sample.entry "b" "u1" "lunch" (Sample.noonTwoDaysBefore + 3600000) 600;
              Sample.entry "c" "u1" "dinner" (Sample.noonTwoDaysBefore + 21600000) 800;
              Sample.entry "d" "u1" "breakfast" (Sample.noon - 14400000) 500;
              Sample.entry "e" "u1" "lunch" (Sample.noon - 3600000) 700 ];
          dailySummaries :=
            {[ ("u1", Sample.midnight) := summaryOf "s3" "u1" Sample.midnight 1200;
               ("u1", Sample.midnight - 172800000) :=
                 summaryOf "s2" "u1" (Sample.midnight - 172800000) 1800;
               ("u1", Sample.midnight - 864000000) :=
                 summaryOf "s1" "u1" (Sample.midnight - 864000000) 2100;
               ("u2", Sample.midnight) := summaryOf "s4" "u2" Sample.midnight 900 ]} |};
     Handler.sent := [] |}.

(** A provider that answers the text of an empty JSON object. *)
Definition answered : env :=
  Sample.atNoon Sample.noFailure (Content "{}" (Some (JObj []))).

End Scenario.

(** ** The mobile client: src/services/api/client.ts and
       src/store/authStore.ts *)

Module Client.

(** How a request through axios settles: fulfilled with the data of the
    response, or rejected with [error.response?.status], [None] when no
    response came. *)
Inductive settled (A : Type) :=
| Fulfilled (data : A)
| Rejected (status : option Z).
Arguments Fulfilled {A} data.
Arguments Rejected {A} status.

(** A request as it leaves the device. *)
Record call := {
  method : string;
  url : string;
  authorization : option string
}.

(** The state of the zustand store. *)
Record AuthState := {
  user : option json;
  token : option string;
  isAuthenticated : bool
}.

(** The device: the item [auth_token] of the secure store, the auth store,
    and the requests sent so far. *)
Record device := {
  keychain : option string;
  auth : AuthState;
  calls : list call
}.

Definition loggedOut : AuthState :=
  {| user := None; token := None; isAuthenticated := false |}.

Definition start : device :=
  {| keychain := None; auth := loggedOut; calls := [] |}.

(** The request interceptor: [if (token) Authorization = `Bearer ${token}`]. *)
Definition bearer (stored : option string) : option string :=
  match stored with
  | Some "" | None => None
  | Some t => Some ("Bearer " ++ t)
  end.

(** The response interceptor on an error: the token is deleted when the
    status is 401. *)
Definition onRejected (status : option Z) (stored : option string)
  : option string :=
  match status with
  | Some 401 => None
  | _ => stored
  end.

(** A request through [apiClient]; [answer] is what the server does with the
    Authorization header it receives. *)
Definition send {A} (method url : string)
    (answer : option string -> settled A) (d : device) : settled A * device :=
  let header := bearer (keychain d) in
  let r := answer header in
  (r,
   {| keychain :=
        match r with
        | Rejected status => onRejected status (keychain d)
        | Fulfilled _ => keychain d
        end;
      auth := auth d;
      calls :=
        calls d
        ++ [{| method := method; url := url; authorization := header |}] |}).

(** [login]: the flag tells whether the promise is fulfilled. *)
Definition login (email password : string)
    (answer : string -> string -> option string
              -> settled (string * option json))
    (d : device) : bool * device :=
  match send "POST" "/auth/login" (answer email password) d with
  | (Fulfilled (token, user), d') =>
      (true,
       {| keychain := Some token;
          auth := {| user := user; token := Some token;
                     isAuthenticated := true |};
          calls := calls d' |})
  | (Rejected _, d') => (false, d')
  end.

Definition logout (d : device) : device :=
  {| keychain := None; auth := loggedOut; calls := calls d |}.

Definition checkAuth (answer : option string -> settled (option json))
    (d : device) : device :=
  match keychain d with
  | Some (String c t) =>
      match send "GET" "/auth/me" answer d with
      | (Fulfilled user, d') =>
          {| keychain := keychain d';
             auth := {| user := user; token := Some (String c t);
                        isAuthenticated := true |};
             calls := calls d' |}
      | (Rejected _, d') =>
          {| keychain := None; auth := loggedOut; calls := calls d' |}
      end
  | _ => d
  end.

(** What the user and the application do on the device. *)
Inductive action :=
| Login (email password : string)
    (answer : string -> string -> option string
              -> settled (string * option json))
| Logout
| CheckAuth (answer : option string -> settled (option json))
| Request (method url : string) (answer : option string -> settled unit).

Definition act (d : device) (a : action) : device :=
  match a with
  | Login email password answer => snd (login email password answer d)
  | Logout => logout d
  | CheckAuth answer => checkAuth answer d
  | Request method url answer => snd (send method url answer d)
  end.

Definition run (actions : list action) (d : device) : device :=
  fold_left act actions d.

(** The auth store is coherent when it is authenticated with a token, or not
    authenticated, without token and without user. *)
Definition coherent (a : AuthState) : Prop :=
  if isAuthenticated a then is_Some (token a)
  else token a = None /\ user a = None.

(** The auth store and the secure store agree when an authenticated store
    holds the token that is in the secure store. *)
Definition agree (d : device) : Prop :=
  isAuthenticated (auth d) = true -> keychain d = token (auth d).

(** No answer to a login or to a request is a 401. *)
Definition no401 (a : action) : Prop :=
  match a with
  | Login email password answer =>
      forall h, answer email password h <> Rejected (Some 401)
  | Request _ _ answer => forall h, answer h <> Rejected (Some 401)
  | _ => True
  end.

(** An action that is not a login. *)
Definition notLogin (a : action) : Prop :=
  match a with
  | Login _ _ _ => False
  | _ => True
  end.

End Client.

(** ** The web page: components/PromptForm.tsx, app/page.tsx and
       app/api/chat-gpt/route.ts *)

Module Web.

(** PromptForm: the text of the input, and what happens to it. *)
Inductive formEvent :=
| Change (value : string)
| Submit.

(** The handlers [onChange] and [onSubmit] of the form: the new text, and the
    prompts handed to the [onSubmit] of the page. *)
Definition handle (prompt : string) (ev : formEvent) : string * list string :=
  match ev with
  | Change value => (value, [])
  | Submit =>
      match prompt with
      | "" => (prompt, [])
      | _ => ("", [prompt])
      end
  end.

(** The text left and the prompts submitted after a sequence of events. *)
Fixpoint handleAll (prompt : string) (evs : list formEvent)
  : string * list string :=
  match evs with
  | [] => (prompt, [])
  | ev :: rest =>
      let (prompt', out) := handle prompt ev in
      let (final, outs) := handleAll prompt' rest in
      (final, (out ++ outs)%list)
  end.

(** route.ts: the request sent to the provider. *)
Record chatCall := {
  chatModel : string;
  chatSystem : string;
  chatUser : option string;
  chatTemperature : Q;
  max_tokens : Z;
  top_p : Q;
  frequency_penalty : Q;
  presence_penalty : Q
}.

Record choice := { index : Z; content : string }.

(** The completion as JSON: its [choices], when it has the key. *)
Record completionJson := { choices : option (list choice) }.

(** [POST] of route.ts.  [params] is the parsed body, [None] when
    [request.json()] throws, and in it [prompt], [None] when the key is
    missing; [provider] is the provider's answer to a call, [None] when it
    throws.  Nothing is caught: the result is [None] when the handler throws. *)
Definition chatRequestFor (prompt : option string) : chatCall :=
  {| chatModel := "gpt-4o-mini";
     chatSystem := "You are a nutritional assisstant providing calorie and macro information based on the user's input.";
     chatUser := prompt;
     chatTemperature := 0;
     max_tokens := 1024;
     top_p := 1;
     frequency_penalty := 0;
     presence_penalty := 0 |}.

Definition POST (params : option (option string))
    (provider : chatCall -> option completionJson) (sent : list chatCall)
  : option completionJson * list chatCall :=
  match params with
  | None => (None, sent)
  | Some prompt =>
      (provider (chatRequestFor prompt), (sent ++ [chatRequestFor prompt])%list)
  end.

(** page.tsx: the state of [Home]; [shown] is [None] when [setChoices] got
    [undefined]. *)
Record page := { shown : option (list choice); isLoading : bool }.

(** The [onSubmit] of [Home] for a prompt: [online] tells whether [fetch]
    reaches the server; a handler that throws is answered with a body that is
    not JSON, on which [response.json()] throws. *)
Definition onSubmit (prompt : string) (online : bool)
    (provider : chatCall -> option completionJson)
    (p : page) (sent : list chatCall) : page * list chatCall :=
  let loading := {| shown := shown p; isLoading := true |} in
  if online then
    let (result, sent') := POST (Some (Some prompt)) provider sent in
    let idle := {| shown := shown p; isLoading := false |} in
    match result with
    | Some completion =>
        ({| shown := choices completion; isLoading := false |}, sent')
    | None => (idle, sent')
    end
  else (loading, sent).

(** A visit of the page: the events of the form, each prompt the form
    submits going through [onSubmit]. *)
Fixpoint visit (prompt : string) (evs : list formEvent) (online : bool)
    (provider : chatCall -> option completionJson)
    (p : page) (sent : list chatCall) : string * page * list chatCall :=
  match evs with
  | [] => (prompt, p, sent)
  | ev :: rest =>
      let (prompt', out) := handle prompt ev in
      let (p', sent') :=
        fold_left
          (fun st submitted => onSubmit submitted online provider (fst st) (snd st))
          out (p, sent) in
      visit prompt' rest online provider p' sent'
  end.

End Web.

(** ** Sample servers and devices *)

Module Trial.

Import Client.

(** A server that accepts every login with the token "t-42". *)
Definition accepts : string -> string -> option string
                     -> settled (string * option json) :=
  fun _ _ _ => Fulfilled ("t-42", Some (JStr "alice")).

(** A server that knows the session. *)
Definition known : option string -> settled (option json) :=
  fun _ => Fulfilled (Some (JStr "alice")).

(** A server that cannot be reached. *)
Definition unreachable {A} : option string -> settled A :=
  fun _ => Rejected None.


(** A server that answers 500. *)
Definition breaks {A} : option string -> settled A :=
  fun _ => Rejected (Some 500).

(** A session: login, a request that fails with 500, a check of the session
    without network, a new login. *)
Definition evening : list action :=
  [ Login "alice@example.org" "secret" accepts;
    Request "GET" "/meals" breaks;
    CheckAuth unreachable;
    Login "alice@example.org" "secret" accepts ].

(** After a logout: a check of the session, a request, a second logout. *)
Definition idle : list action :=
  [ CheckAuth known; Request "GET" "/meals" breaks; Logout ].

(** The device once alice is logged in. *)
Definition loggedIn : device :=
  snd (login "alice@example.org" "secret" accepts start).

(** A provider of the web page that answers one choice. *)
Definition oneChoice : Web.chatCall -> option Web.completionJson :=
  fun _ =>
    Some {| Web.choices :=
              Some [{| Web.index := 0; Web.content := "About 650 kcal." |}] |}.

Definition blank : Web.page := {| Web.shown := Some []; Web.isLoading := false |}.

End Trial.

(** ** Properties of the numeric primitives *)

Section RoundFacts.

Local Open Scope Q_scope.

Lemma Math_round_upper (x : Q) : inject_Z (Js.Math_round x) <= x + (1 # 2).
Proof. unfold Js.Math_round. apply Qfloor_le. Qed.

Lemma Math_round_lower (x : Q) : x - (1 # 2) < inject_Z (Js.Math_round x).
Proof.
  unfold Js.Math_round.
  pose proof (Qlt_floor (x + (1 # 2))) as H.
  rewrite inject_Z_plus in H. change (inject_Z 1) with 1 in H. lra.
Qed.

Lemma Math_round_integer (z : Z) (x : Q) :
  x == inject_Z z -> Js.Math_round x = z.
Proof.
  intros E. unfold Js.Math_round.
  assert (Hle : (z <= Qfloor (x + (1 # 2)))%Z).
  { rewrite <- (Qfloor_Z z). apply Qfloor_resp_le. rewrite E. lra. }
  assert (Hlt : (Qfloor (x + (1 # 2)) < z + 1)%Z).
  { rewrite Zlt_Qlt. eapply Qle_lt_trans; [apply Qfloor_le|].
    rewrite E, inject_Z_plus. change (inject_Z 1) with 1. lra. }
  lia.
Qed.

End RoundFacts.

Section TdeeFacts.

Local Open Scope Q_scope.
Import Tdee.


End TdeeFacts.

(** ** Properties of the binary64 primitives *)

Section Binary64Facts.

Local Open Scope Q_scope.
Import Binary64.

Lemma toQ_integer (negative : bool) (n : positive) :
  toQ (integer negative n)
  == if negative then - inject_Z (Z.pos n) else inject_Z (Z.pos n).
Proof.
  unfold integer.
  assert (E : forall k : positive,
            Z.pos (n * 2 ^ k) # 2 ^ k == inject_Z (Z.pos n)).
  { intros k. unfold Qeq, inject_Z. cbn [Qnum Qden]. lia. }
  destruct (53 - Z.pos (Pos.size n))%Z as [| k | k]; cbn [toQ].
  - rewrite Z.mul_1_r. destruct negative; reflexivity.
  - destruct negative; rewrite E; reflexivity.
  - rewrite Z.mul_1_r. destruct negative; reflexivity.
Qed.

(** The value of [Math.round] of a double is [Math.round] of its value. *)
Lemma Math_round_value (s : bool) (m : positive) (e : Z) :
  toQ (Math_round (S754_finite s m e))
  == inject_Z (Js.Math_round (toQ (S754_finite s m e))).
Proof.
  unfold Math_round. destruct (Z.leb_spec 0 e) as [He | He].
  - symmetry.
    assert (Hz : exists z, toQ (S754_finite s m e) == inject_Z z).
    { cbn [toQ]. destruct e as [| p | p]; [| | lia];
        destruct s; eexists; try reflexivity;
        rewrite <- inject_Z_opp; reflexivity. }
    destruct Hz as [z Hz]. rewrite (Math_round_integer z _ Hz), Hz. reflexivity.
  - destruct (Js.Math_round (toQ (S754_finite s m e))) as [| n | n].
    + reflexivity.
    + rewrite toQ_integer. reflexivity.
    + rewrite toQ_integer. reflexivity.
Qed.

Lemma Math_round_finite (x : spec_float) : finite (Math_round x) = finite x.
Proof.
  destruct x as [s | s | | s m e]; try reflexivity.
  unfold Math_round. destruct (Z.leb 0 e); [reflexivity |].
  destruct (Js.Math_round _); [reflexivity | |];
    unfold integer; destruct (53 - _)%Z; reflexivity.
Qed.

(** [Math.round] of a finite double is a finite double whose value is the
    integer nearest to the value of the argument, a tie going up. *)
Lemma Math_round_nearest (x : spec_float) :
  finite x = true ->
  finite (Math_round x) = true
  /\ exists n : Z,
       toQ (Math_round x) == inject_Z n
       /\ toQ x - (1 # 2) < inject_Z n
       /\ inject_Z n <= toQ x + (1 # 2).
Proof.
  intros Hx. split; [rewrite Math_round_finite; exact Hx |].
  destruct x as [s | s | | s m e]; try discriminate.
  - exists 0%Z. cbn. split; [reflexivity | split; reflexivity || discriminate].
  - exists (Js.Math_round (toQ (S754_finite s m e))).
    split; [apply Math_round_value |].
    split; [apply Math_round_lower | apply Math_round_upper].
Qed.

Lemma Math_round_other (x : spec_float) : finite x = false -> Math_round x = x.
Proof. destruct x; try discriminate; reflexivity. Qed.

(** The table of multipliers, read at a name that is not inherited, is the
    table of the specification. *)
Lemma multiplier_activity_factor (level : string) :
  level ∉ objectPrototype ->
  or_else (get multipliers level) (decimal 1375 1000)
  = Number (activity_factor level).
Proof.
  intros Hl. unfold get, multipliers, activity_factor.
  repeat (case_decide; [ subst level; vm_compute; reflexivity | ]).
  rewrite ?lookup_insert_ne, ?lookup_singleton_ne, ?lookup_empty by congruence.
  rewrite bool_decide_eq_false_2 by exact Hl. reflexivity.
Qed.

Lemma adjustment_goal_offset (goal : string) :
  goal ∉ objectPrototype ->
  or_else (get adjustments goal) (ofZ 0) = Number (goal_offset goal).
Proof.
  intros Hl. unfold get, adjustments, goal_offset.
  repeat (case_decide; [ subst goal; vm_compute; reflexivity | ]).
  rewrite ?lookup_insert_ne, ?lookup_singleton_ne, ?lookup_empty by congruence.
  rewrite bool_decide_eq_false_2 by exact Hl. reflexivity.
Qed.

(** Neither table has a key of its own among the inherited names. *)
Lemma inherited_not_own (name : string) :
  name ∈ objectPrototype ->
  multipliers !! name = None /\ adjustments !! name = None.
Proof.
  intros H. unfold objectPrototype in H.
  repeat (apply elem_of_cons in H as [-> | H];
          [split; vm_compute; reflexivity |]).
  apply elem_of_nil in H. contradiction.
Qed.

End Binary64Facts.

(** ** The handlers, step by step *)

Ltac handler_steps :=
  cbv beta iota delta
    [Handler.tryCatch Handler.bind Handler.orThrow Handler.ret Handler.throw
     Prisma.guard Prisma.meal_create Prisma.user_findUnique
     Prisma.dailySummary_upsert Prisma.dailySummary_findUnique
     Prisma.meal_findMany Prisma.dailySummary_findMany].

Section DailyFacts.

Local Open Scope Q_scope.

Lemma Math_min_le_r (x y : Q) : Js.Math_min x y <= y.
Proof.
  unfold Js.Math_min. destruct (Qle_bool x y) eqn:E.
  - apply Qle_bool_iff. exact E.
  - apply Qle_refl.
Qed.

Lemma Math_min_Qmin (x y : Q) : Js.Math_min x y == Qmin y x.
Proof.
  unfold Js.Math_min. destruct (Qle_bool x y) eqn:E.
  - symmetry. apply Q.min_r. apply Qle_bool_iff. exact E.
  - symmetry. apply Q.min_l. apply Qlt_le_weak, Qnot_le_lt.
    intros H. apply Qle_bool_iff in H. congruence.
Qed.

Lemma or_elseZ_nonzero (g d : Z) : g <> 0%Z -> Js.or_elseZ (Some g) d = g.
Proof. intros H. unfold Js.or_elseZ. destruct (Z.eqb_spec g 0); congruence. Qed.

Lemma or_elseZ_2000_nonzero (o : option Z) : Js.or_elseZ o 2000 <> 0%Z.
Proof.
  destruct o as [t |]; simpl; [| discriminate].
  destruct (Z.eqb_spec t 0); [discriminate | assumption].
Qed.

(** What the daily handler answers, from the row it finds. *)
Lemma Daily_GET_answer uid p e w :
  storeUp e -> p <> Meals.InvalidDate ->
  let summary :=
    match dailySummaries (Handler.db w) !! (uid, requestedDay p e) with
    | Some row => Daily.Stored row
    | None =>
        Daily.Zeroed
          (Js.or_elseZ (users (Handler.db w) !! uid ≫= User.targetCalories) 2000)
    end in
  Daily.summaryGoal summary <> 0%Z ->
  Daily.GET (Some uid) p e w =
  (Ok 200
     {| Daily.spread := summary;
        Daily.remaining :=
          inject_Z (Daily.summaryGoal summary) - Daily.totalCalories summary;
        Daily.percentage :=
          Js.Math_min
            (Daily.totalCalories summary / inject_Z (Daily.summaryGoal summary)
             * 100) 100;
        Daily.goalCalories := Daily.summaryGoal summary |}, w).
Proof.
  intros Hup Hp summary Hg. unfold Daily.GET. handler_steps.
  rewrite !Hup.
  assert (Hday : match p with
                 | Meals.DateOf t => Some (Time.startOfDay t)
                 | Meals.NoDate => Some (Time.startOfDay (now e))
                 | Meals.InvalidDate => None
                 end = Some (requestedDay p e)).
  { destruct p; simpl; congruence. }
  rewrite Hday. fold summary.
  rewrite !(or_elseZ_nonzero _ _ Hg).
  destruct (Z.eqb_spec (Daily.summaryGoal summary) 0) as [E | _];
    [contradiction | reflexivity].
Qed.

End DailyFacts.

Section MealsFacts.

(** What the meal-creation handler does when nothing throws. *)
Lemma Meals_POST_stores uid body data u e w :
  storeUp e ->
  Meals.createMealSchema body = Some data ->
  users (Handler.db w) !! uid = Some u ->
  let today := Time.startOfDay (now e) in
  let meal := Meals.mealData uid data e in
  let row :=
    match dailySummaries (Handler.db w) !! (uid, today) with
    | Some d => Meals.incrementBy data d
    | None => Meals.summaryCreate uid today data (Some u) e
    end in
  Meals.POST (Some uid) (Some body) e w =
  (Ok 200 (meal, row),
   {| Handler.db :=
        {| users := users (Handler.db w);
           meals := meals (Handler.db w) ++ [meal];
           dailySummaries :=
             <[(uid, today) := row]> (dailySummaries (Handler.db w)) |};
      Handler.sent := Handler.sent w |}).
Proof.
  intros Hup Hbody Hu today meal row. unfold Meals.POST. handler_steps.
  rewrite Hbody, !Hup. cbn [Meals.mealData Meal.userId].
  rewrite Hu. cbn [Handler.db Handler.sent users Prisma.withMeals
                   Prisma.withSummaries dailySummaries meals].
  rewrite Hu. reflexivity.
Qed.

End MealsFacts.

(** ** Sorting and days *)

Section SortFacts.

Context {A : Type} (leb : A -> A -> bool).

Lemma insertBy_perm (x : A) (l : list A) :
  Permutation (Prisma.insertBy leb x l) (x :: l).
Proof.
  induction l as [| y l IH]; simpl; [reflexivity |].
  destruct (leb x y); [reflexivity |].
  rewrite IH. apply perm_swap.
Qed.

Lemma sortBy_perm (l : list A) : Permutation (Prisma.sortBy leb l) l.
Proof.
  induction l as [| x l IH]; simpl; [reflexivity |].
  rewrite insertBy_perm. apply perm_skip, IH.
Qed.

Lemma sortBy_length (l : list A) : length (Prisma.sortBy leb l) = length l.
Proof. apply Permutation_length, sortBy_perm. Qed.

Hypothesis leb_total : forall a b, leb a b = true \/ leb b a = true.

Lemma insertBy_hdrel (x y : A) (l : list A) :
  leb y x = true ->
  HdRel (fun a b => leb a b = true) y l ->
  HdRel (fun a b => leb a b = true) y (Prisma.insertBy leb x l).
Proof.
  intros Hyx Hhd. destruct l as [| z l]; simpl; [constructor; exact Hyx |].
  destruct (leb x z); constructor; [exact Hyx |].
  inversion Hhd; assumption.
Qed.

Lemma insertBy_sorted (x : A) (l : list A) :
  Sorted (fun a b => leb a b = true) l ->
  Sorted (fun a b => leb a b = true) (Prisma.insertBy leb x l).
Proof.
  induction l as [| y l IH]; intros Hs; simpl.
  - repeat constructor.
  - destruct (leb x y) eqn:E.
    + constructor; [exact Hs | constructor; exact E].
    + inversion Hs as [| ? ? Hs' Hhd]; subst.
      constructor; [apply IH, Hs' |].
      apply insertBy_hdrel; [| exact Hhd].
      destruct (leb_total x y); congruence.
Qed.

Lemma sortBy_sorted (l : list A) :
  Sorted (fun a b => leb a b = true) (Prisma.sortBy leb l).
Proof.
  induction l as [| x l IH]; simpl; [constructor |].
  apply insertBy_sorted, IH.
Qed.

End SortFacts.

Section FilterFacts.

Context {A : Type}.

Lemma filter_ext_eq (f g : A -> bool) (l : list A) :
  (forall x, f x = g x) -> List.filter f l = List.filter g l.
Proof.
  intros H. induction l as [| x l IH]; simpl; [reflexivity |].
  rewrite H, IH. reflexivity.
Qed.

Lemma filter_length_weaken (f g : A -> bool) (l : list A) :
  (forall x, f x = true -> g x = true) ->
  (length (List.filter f l) <= length (List.filter g l))%nat.
Proof.
  intros H. induction l as [| x l IH]; simpl; [lia |].
  destruct (f x) eqn:E.
  - rewrite (H x E). simpl. lia.
  - destruct (g x); simpl; lia.
Qed.

End FilterFacts.

Section DayFacts.

Lemma startOfDay_le (t : Z) : Time.startOfDay t <= t < Time.startOfDay t + Time.msPerDay.
Proof.
  unfold Time.startOfDay.
  pose proof (Z.mod_pos_bound t Time.msPerDay ltac:(reflexivity)). lia.
Qed.

Lemma startOfDay_multiple (t : Z) : Time.startOfDay t mod Time.msPerDay = 0.
Proof.
  unfold Time.startOfDay.
  rewrite Zminus_mod_idemp_r, Z.sub_diag. reflexivity.
Qed.

(** An instant lies between the first and the last millisecond of the day of
    [t] exactly when its own day is that day. *)
Lemma within_day_iff (ts t : Z) :
  Time.startOfDay t <= ts <= Time.endOfDay t
  <-> Time.startOfDay ts = Time.startOfDay t.
Proof.
  unfold Time.endOfDay. split.
  - intros [Hlo Hhi].
    pose proof (startOfDay_multiple t) as Hm.
    unfold Time.startOfDay at 1.
    assert (E : ts mod Time.msPerDay = ts - Time.startOfDay t).
    { symmetry. apply (Z.mod_unique_pos ts Time.msPerDay
                         (Time.startOfDay t / Time.msPerDay)); [lia |].
      pose proof (Z.div_mod (Time.startOfDay t) Time.msPerDay
                    ltac:(discriminate)) as Hd.
      rewrite Hm in Hd. lia. }
    lia.
  - intros E. pose proof (startOfDay_le ts). lia.
Qed.

Lemma timestampDesc_total (a b : Meal.t) :
  Meals.timestampDesc a b = true \/ Meals.timestampDesc b a = true.
Proof. unfold Meals.timestampDesc. rewrite !Z.leb_le. lia. Qed.

(** The [where] of the meals query selects what the filters select. *)
Lemma where_selected uid p mealType (m : Meal.t) :
  p <> Meals.InvalidDate ->
  Meals.where_ uid
    match p with
    | Meals.DateOf t => Some (Time.startOfDay t, Time.endOfDay t)
    | _ => None
    end
    mealType m
  = Aggregate.selected uid (dateFilter p) mealType m.
Proof.
  intros Hp. unfold Meals.where_, Aggregate.selected.
  destruct p as [| | t]; [reflexivity | contradiction |]. cbn [dateFilter].
  f_equal. f_equal.
  apply eq_true_iff_eq.
  rewrite andb_true_iff, !Z.leb_le, Z.eqb_eq. apply within_day_iff.
Qed.

End DayFacts.

(** ** Totals and meals *)

Section AggregateFacts.

Local Open Scope list_scope.
Local Open Scope Q_scope.

Lemma total_app (f : Meal.t -> Q) (l l' : list Meal.t) :
  Aggregate.total f (l ++ l') == Aggregate.total f l + Aggregate.total f l'.
Proof.
  induction l as [| m l IH]; simpl; [ring |]. rewrite IH. ring.
Qed.

Lemma mealsOn_snoc (d d' : Database) (m : Meal.t) uid day :
  meals d' = meals d ++ [m] ->
  Aggregate.mealsOn d' uid day
  = Aggregate.mealsOn d uid day
    ++ (if String.eqb (Meal.userId m) uid
           && Z.eqb (Time.startOfDay (Meal.timestamp m)) day
        then [m] else []).
Proof.
  intros E. unfold Aggregate.mealsOn. rewrite E. apply List.filter_app.
Qed.

Lemma consistent_without_rows (us : gmap string User.t) :
  Aggregate.consistent {| users := us; meals := []; dailySummaries := ∅ |}.
Proof.
  intros uid t. unfold Aggregate.reflected, Aggregate.recorded.
  cbn. rewrite lookup_empty. repeat split; reflexivity.
Qed.

Section OneField.

Variables (uid : string) (data : Meals.request) (e : env) (d : Database).
Variables (fs : DailySummary.t -> Q) (fm : Meal.t -> Q) (fd : Meals.request -> Q).

Hypothesis fs_increment :
  forall row, fs (Meals.incrementBy data row) = fs row + fd data.
Hypothesis fs_create :
  forall user,
    fs (Meals.summaryCreate uid (Time.startOfDay (now e)) data user e) = fd data.
Hypothesis fm_meal : fm (Meals.mealData uid data e) = fd data.
Hypothesis same_day :
  Time.startOfDay (Meal.timestamp (Meals.mealData uid data e))
  = Time.startOfDay (now e).

(** One total stays the sum of its field when a meal of today is stored and
    today's summary is upserted. *)
Lemma recorded_after_create (user : option User.t) uid' day' :
  let today := Time.startOfDay (now e) in
  let meal := Meals.mealData uid data e in
  let row :=
    match dailySummaries d !! (uid, today) with
    | Some old => Meals.incrementBy data old
    | None => Meals.summaryCreate uid today data user e
    end in
  let d' :=
    {| users := users d; meals := meals d ++ [meal];
       dailySummaries := <[(uid, today) := row]> (dailySummaries d) |} in
  Aggregate.recorded fs d uid' day'
    == Aggregate.total fm (Aggregate.mealsOn d uid' day') ->
  Aggregate.recorded fs d' uid' day'
    == Aggregate.total fm (Aggregate.mealsOn d' uid' day').
Proof.
  intros today meal row d' H.
  rewrite (mealsOn_snoc d d' meal) by reflexivity. rewrite total_app.
  unfold Aggregate.recorded in *. unfold d'. cbn [dailySummaries].
  subst today meal.
  destruct (decide ((uid, Time.startOfDay (now e)) = (uid', day'))) as [E | E].
  - injection E as <- <-. rewrite lookup_insert_eq, same_day.
    cbn [Meals.mealData Meal.userId].
    rewrite String.eqb_refl, Z.eqb_refl.
    cbn [andb Aggregate.total fold_right].
    change (fm _) with (fm (Meals.mealData uid data e)).
    rewrite fm_meal. unfold row.
    destruct (dailySummaries d !! (uid, Time.startOfDay (now e))) as [old |].
    + rewrite fs_increment, H. ring.
    + rewrite fs_create, <- H. ring.
  - rewrite lookup_insert_ne by exact E.
    assert (Hoff :
      String.eqb (Meal.userId (Meals.mealData uid data e)) uid'
      && Z.eqb (Time.startOfDay (Meal.timestamp (Meals.mealData uid data e)))
           day' = false).
    { apply andb_false_iff.
      destruct (String.eqb_spec (Meal.userId (Meals.mealData uid data e)) uid')
        as [Hu |]; [right | left; reflexivity].
      apply Z.eqb_neq. intros Hday. apply E.
      rewrite <- Hu, <- Hday, same_day. reflexivity. }
    rewrite Hoff. cbn [Aggregate.total fold_right].
    rewrite H. ring.
Qed.

End OneField.

(** Creating a meal whose timestamp falls today keeps the store consistent. *)
Lemma POST_today_keeps_consistent uid body data u e w :
  storeUp e ->
  Meals.createMealSchema body = Some data ->
  users (Handler.db w) !! uid = Some u ->
  Time.startOfDay (Meal.timestamp (Meals.mealData uid data e))
    = Time.startOfDay (now e) ->
  Aggregate.consistent (Handler.db w) ->
  Aggregate.consistent
    (Handler.db (snd (Meals.POST (Some uid) (Some body) e w))).
Proof.
  intros Hup Hbody Hu Hday Hcons.
  rewrite (Meals_POST_stores uid body data u e w Hup Hbody Hu).
  cbn [snd Handler.db]. intros uid' t.
  destruct (Hcons uid' t) as (H1 & H2 & H3 & H4).
  repeat split.
  - apply (recorded_after_create uid data e (Handler.db w)
             DailySummary.totalCalories Meal.calories Meals.calories);
      auto.
  - apply (recorded_after_create uid data e (Handler.db w)
             DailySummary.totalProtein Meal.protein Meals.protein);
      auto.
  - apply (recorded_after_create uid data e (Handler.db w)
             DailySummary.totalCarbs Meal.carbs Meals.carbs);
      auto.
  - apply (recorded_after_create uid data e (Handler.db w)
             DailySummary.totalFats Meal.fats Meals.fats);
      auto.
Qed.

(** Creating a meal never stores a summary whose goal is zero. *)
Lemma POST_keeps_goals_set session body e w :
  Aggregate.goalsSet (Handler.db w) ->
  Aggregate.goalsSet (Handler.db (snd (Meals.POST session body e w))).
Proof.
  intros Hg. unfold Meals.POST. handler_steps.
  destruct session as [uid |]; [| exact Hg].
  destruct body as [body |]; [| exact Hg].
  destruct (Meals.createMealSchema body) as [data |]; [| exact Hg].
  destruct (fails e MealCreate); [exact Hg |].
  cbn [Meals.mealData Meal.userId].
  destruct (users (Handler.db w) !! uid) as [u |] eqn:Hu; [| exact Hg].
  cbn [Handler.db Handler.sent Prisma.withMeals users].
  destruct (fails e UserFindUnique); [exact Hg |].
  destruct (fails e DailySummaryUpsert); [exact Hg |].
  cbn [snd Handler.db Prisma.withSummaries Prisma.withMeals dailySummaries].
  intros key row. unfold Prisma.withSummaries, Prisma.withMeals.
  cbn [dailySummaries users meals]. rewrite lookup_insert.
  case_decide as E; [| apply Hg].
  intros H. injection H as <-.
  destruct (dailySummaries (Handler.db w) !! (uid, Time.startOfDay (now e)))
    as [old |] eqn:Hold.
  - cbn. exact (Hg _ _ Hold).
  - cbn. apply or_elseZ_2000_nonzero.
Qed.

End AggregateFacts.

(** ** The TDEE calculator *)

Section TdeeClaims.

Local Open Scope Q_scope.
Import Tdee.



(** C7, the claim as the specification words it, at three inputs.  At the
    level "constructor", a name every object inherits, the table gives a
    built-in, not the default 1.375, and the result is NaN, not 2465.  At a
    bmr of 1457.090909090909 and the level "light", bmr times 1.375 is below
    2003.5 and its nearest integer is 2003, but the product as binary64
    rounds it is 2003.5, and the result is 2004.  At a bmr of
    1742.258064516129 and the level "moderate", the integer nearest to bmr
    times 1.55 is 2700 and the result is 2701. *)
Lemma calculateTDEE_is_not_nearest_scaled_bmr :
  (let bmr := Binary64.decimal 17925 10 in
   Binary64.calculateTDEE bmr "constructor" = S754_nan
   /\ Js.Math_round (Binary64.toQ bmr * Tdee.activity_factor "constructor")
      = 2465%Z)
  /\ (let bmr := Binary64.decimal 1457090909090909 1000000000000 in
      Binary64.calculateTDEE bmr "light" = Binary64.ofZ 2004
      /\ Js.Math_round (Binary64.toQ bmr * Tdee.activity_factor "light")
         = 2003%Z)
  /\ (let bmr := Binary64.decimal 1742258064516129 1000000000000 in
      Binary64.calculateTDEE bmr "moderate" = Binary64.ofZ 2701
      /\ Js.Math_round (Binary64.toQ bmr * Tdee.activity_factor "moderate")
         = 2700%Z).
Proof. cbv zeta. repeat split; vm_compute; reflexivity. Qed.

(** C7, amended: for every bmr and every activity level that is not a name
    objects inherit, calculateTDEE is Math.round of the product of bmr and
    the factor of the level (1.2, 1.375, 1.55, 1.725, 1.9, and 1.375 for a
    level that is not in the table), the factor and the product being the
    binary64 numbers: when the product is finite the result is finite and is
    the integer nearest to the product, a tie going up; when the product is
    infinite or not a number the result is the product; and
    calculateTDEE(1792.5, "moderate") = 2778. *)
Theorem calculateTDEE_rounds_binary64_product bmr level :
  level ∉ Binary64.objectPrototype ->
  let product := Binary64.mul bmr (Binary64.activity_factor level) in
  Binary64.calculateTDEE bmr level = Binary64.Math_round product
  /\ (Binary64.finite product = true ->
      Binary64.finite (Binary64.calculateTDEE bmr level) = true
      /\ exists n : Z,
           Binary64.toQ (Binary64.calculateTDEE bmr level) == inject_Z n
           /\ Binary64.toQ product - (1 # 2) < inject_Z n
           /\ inject_Z n <= Binary64.toQ product + (1 # 2))
  /\ (Binary64.finite product = false ->
      Binary64.calculateTDEE bmr level = product)
  /\ Binary64.calculateTDEE (Binary64.decimal 17925 10) "moderate"
     = Binary64.ofZ 2778.
Proof.
  intros Hl product.
  assert (E : Binary64.calculateTDEE bmr level = Binary64.Math_round product).
  { unfold Binary64.calculateTDEE.
    rewrite (multiplier_activity_factor level Hl). reflexivity. }
  split; [exact E |]. rewrite E.
  split; [apply Math_round_nearest |].
  split; [apply Math_round_other | vm_compute; reflexivity].
Qed.

(** C7, amended, at the scenario of the specification: the product is
    2778.375 and the result 2778. *)
Lemma calculateTDEE_rounds_binary64_product_witness :
  ("moderate" ∉ Binary64.objectPrototype)
  /\ Binary64.mul (Binary64.decimal 17925 10)
       (Binary64.activity_factor "moderate")
     = Binary64.decimal 2778375 1000
  /\ Binary64.calculateTDEE (Binary64.decimal 17925 10) "moderate"
     = Binary64.Math_round (Binary64.decimal 2778375 1000)
  /\ exists n : Z,
       Binary64.toQ (Binary64.calculateTDEE (Binary64.decimal 17925 10)
                       "moderate") == inject_Z n
       /\ 2778.375 - (1 # 2) < inject_Z n
       /\ inject_Z n <= 2778.375 + (1 # 2).
Proof.
  assert (H : "moderate" ∉ Binary64.objectPrototype).
  { apply (bool_decide_unpack _). vm_compute. exact I. }
  assert (Hp : Binary64.mul (Binary64.decimal 17925 10)
                 (Binary64.activity_factor "moderate")
               = Binary64.decimal 2778375 1000)
    by (vm_compute; reflexivity).
  destruct (calculateTDEE_rounds_binary64_product
              (Binary64.decimal 17925 10) "moderate" H)
    as (Hrun & Hnear & _).
  cbv zeta in Hrun, Hnear. rewrite Hp in Hrun, Hnear.
  split; [exact H |]. split; [exact Hp |]. split; [exact Hrun |].
  destruct (Hnear eq_refl) as (_ & n & Hn & Hlo & Hhi).
  exists n. split; [exact Hn |].
  assert (Hv : Binary64.toQ (Binary64.decimal 2778375 1000) == 2778.375)
    by (vm_compute; reflexivity).
  rewrite Hv in Hlo, Hhi. split; assumption.
Defined.

(** C8, the claim as the specification words it, at three inputs.  At the
    goal "constructor", a name every object inherits, the table gives a
    built-in, not the offset 0, and the result is NaN, not 2778.  At a tdee of
    0.49999999999999994, the double next below one half, and the goal "gain",
    tdee plus 500 is below 500.5 and its nearest integer is 500, but the sum
    as binary64 rounds it is 500.5, and the result is 501; likewise at
    1999.4999999999998, where the nearest integer is 2499 and the result
    2500. *)
Lemma calculateTargetCalories_is_not_nearest_offset_tdee :
  (let tdee := Binary64.ofZ 2778 in
   Binary64.calculateTargetCalories tdee "constructor" = S754_nan
   /\ Js.Math_round (Binary64.toQ tdee + Tdee.goal_offset "constructor")
      = 2778%Z)
  /\ (let tdee := S754_finite false 9007199254740991 (-54) in
      Binary64.toQ tdee == (1 # 2) - (1 # 2 ^ 54)
      /\ Binary64.calculateTargetCalories tdee "gain" = Binary64.ofZ 501
      /\ Js.Math_round (Binary64.toQ tdee + Tdee.goal_offset "gain") = 500%Z)
  /\ (let tdee := S754_finite false 8793893998952447 (-42) in
      Binary64.toQ tdee == 1999.5 - (1 # 2 ^ 42)
      /\ Binary64.calculateTargetCalories tdee "gain" = Binary64.ofZ 2500
      /\ Js.Math_round (Binary64.toQ tdee + Tdee.goal_offset "gain")
         = 2499%Z).
Proof. cbv zeta. repeat split; vm_compute; reflexivity. Qed.

(** C8, amended: for every tdee and every goal that is not a name objects
    inherit, calculateTargetCalories is Math.round of the binary64 sum of
    tdee and the offset of the goal (-500 for "lose", +500 for "gain", 0 for
    "maintain" and for a goal that is not in the table): when the sum is
    finite the result is finite and is the integer nearest to the sum, a tie
    going up; when the sum is infinite or not a number the result is the sum;
    calculateTargetCalories(2778, "lose") = 2278, and
    calculateTargetCalories(2778.5, "gain") = 3279. *)
Theorem calculateTargetCalories_rounds_binary64_sum tdee goal :
  goal ∉ Binary64.objectPrototype ->
  let sum := Binary64.add tdee (Binary64.goal_offset goal) in
  Binary64.calculateTargetCalories tdee goal = Binary64.Math_round sum
  /\ (Binary64.finite sum = true ->
      Binary64.finite (Binary64.calculateTargetCalories tdee goal) = true
      /\ exists n : Z,
           Binary64.toQ (Binary64.calculateTargetCalories tdee goal)
           == inject_Z n
           /\ Binary64.toQ sum - (1 # 2) < inject_Z n
           /\ inject_Z n <= Binary64.toQ sum + (1 # 2))
  /\ (Binary64.finite sum = false ->
      Binary64.calculateTargetCalories tdee goal = sum)
  /\ Binary64.calculateTargetCalories (Binary64.ofZ 2778) "lose"
     = Binary64.ofZ 2278
  /\ Binary64.calculateTargetCalories (Binary64.decimal 27785 10) "gain"
     = Binary64.ofZ 3279.
Proof.
  intros Hg sum.
  assert (E : Binary64.calculateTargetCalories tdee goal
              = Binary64.Math_round sum).
  { unfold Binary64.calculateTargetCalories.
    rewrite (adjustment_goal_offset goal Hg). reflexivity. }
  split; [exact E |]. rewrite E.
  split; [apply Math_round_nearest |].
  split; [apply Math_round_other |].
  split; vm_compute; reflexivity.
Qed.

(** C8, amended, at a tdee of 2778.5 and a goal that is not in the table:
    the sum is 2778.5 and the result 2779. *)
Lemma calculateTargetCalories_rounds_binary64_sum_witness :
  ("bulk" ∉ Binary64.objectPrototype)
  /\ Binary64.add (Binary64.decimal 27785 10) (Binary64.goal_offset "bulk")
     = Binary64.decimal 27785 10
  /\ Binary64.calculateTargetCalories (Binary64.decimal 27785 10) "bulk"
     = Binary64.Math_round (Binary64.decimal 27785 10)
  /\ exists n : Z,
       Binary64.toQ (Binary64.calculateTargetCalories
                       (Binary64.decimal 27785 10) "bulk") == inject_Z n
       /\ 2778.5 - (1 # 2) < inject_Z n
       /\ inject_Z n <= 2778.5 + (1 # 2).
Proof.
  assert (H : "bulk" ∉ Binary64.objectPrototype).
  { apply (bool_decide_unpack _). vm_compute. exact I. }
  assert (Hp : Binary64.add (Binary64.decimal 27785 10)
                 (Binary64.goal_offset "bulk")
               = Binary64.decimal 27785 10)
    by (vm_compute; reflexivity).
  destruct (calculateTargetCalories_rounds_binary64_sum
              (Binary64.decimal 27785 10) "bulk" H)
    as (Hrun & Hnear & _).
  cbv zeta in Hrun, Hnear. rewrite Hp in Hrun, Hnear.
  split; [exact H |]. split; [exact Hp |]. split; [exact Hrun |].
  destruct (Hnear eq_refl) as (_ & n & Hn & Hlo & Hhi).
  exists n. split; [exact Hn |].
  assert (Hv : Binary64.toQ (Binary64.decimal 27785 10) == 2778.5)
    by (vm_compute; reflexivity).
  rewrite Hv in Hlo, Hhi. split; assumption.
Defined.

End TdeeClaims.

(** ** The daily summary *)

Section DailyClaims.

Local Open Scope Q_scope.

(** C3: for every user and date, with every stored goal not zero, the daily
    handler returns remaining = goalCalories - totalCalories, negative when the
    total exceeds the goal, and percentage = min(100, totalCalories /
    goalCalories * 100), never above 100; with no DailySummary for the day it
    returns zeroed totals, and the user's target calories (set and not zero) as
    the goal. *)
Theorem getSummary_remaining_and_clamped_percentage uid p e w :
  storeUp e -> p <> Meals.InvalidDate -> Aggregate.goalsSet (Handler.db w) ->
  exists b,
    Daily.GET (Some uid) p e w = (Ok 200 b, w)
    /\ Daily.remaining b
       == inject_Z (Daily.goalCalories b) - Daily.totalCalories (Daily.spread b)
    /\ (inject_Z (Daily.goalCalories b) < Daily.totalCalories (Daily.spread b) ->
        Daily.remaining b < 0)
    /\ Daily.percentage b
       == Qmin 100 (Daily.totalCalories (Daily.spread b)
                    / inject_Z (Daily.goalCalories b) * 100)
    /\ Daily.percentage b <= 100
    /\ (forall row,
          dailySummaries (Handler.db w) !! (uid, requestedDay p e) = Some row ->
          Daily.spread b = Daily.Stored row
          /\ Daily.goalCalories b = DailySummary.goalCalories row)
    /\ (dailySummaries (Handler.db w) !! (uid, requestedDay p e) = None ->
        Daily.totalCalories (Daily.spread b) = 0
        /\ Daily.totalProtein (Daily.spread b) = 0
        /\ Daily.totalCarbs (Daily.spread b) = 0
        /\ Daily.totalFats (Daily.spread b) = 0
        /\ forall u t,
             users (Handler.db w) !! uid = Some u ->
             User.targetCalories u = Some t -> t <> 0%Z ->
             Daily.goalCalories b = t).
Proof.
  intros Hup Hp Hgoals.
  pose proof (Daily_GET_answer uid p e w Hup Hp) as Hrun. cbv zeta in Hrun.
  destruct (dailySummaries (Handler.db w) !! (uid, requestedDay p e))
    as [row |] eqn:Hrow.
  - assert (Hg : DailySummary.goalCalories row <> 0%Z) by exact (Hgoals _ _ Hrow).
    specialize (Hrun Hg).
    eexists. split; [exact Hrun |]. cbn.
    repeat split;
      try first [ reflexivity | discriminate | apply Math_min_Qmin
                | apply Math_min_le_r | congruence ].
    intros H. lra.
  - pose proof (Hrun (or_elseZ_2000_nonzero _)) as Hrun'. clear Hrun.
    rename Hrun' into Hrun.
    eexists. split; [exact Hrun |]. cbn.
    repeat split;
      try first [ reflexivity | discriminate | apply Math_min_Qmin
                | apply Math_min_le_r ].
    + intros H. lra.
    + intros u t Hu Ht Hne. rewrite Hu. cbn. rewrite Ht.
      apply or_elseZ_nonzero. exact Hne.
Qed.

(** C3 at a day on which alice ate 3000 kcal against a goal of 2278: the
    remainder is -722 and the percentage is 100. *)
Lemma getSummary_remaining_and_clamped_percentage_witness :
  storeUp (Sample.atNoon Sample.noFailure ApiError)
  /\ Meals.NoDate <> Meals.InvalidDate
  /\ Aggregate.goalsSet (Handler.db Sample.afterFeast)
  /\ exists b,
       Daily.GET (Some "u1") Meals.NoDate
         (Sample.atNoon Sample.noFailure ApiError) Sample.afterFeast
       = (Ok 200 b, Sample.afterFeast)
       /\ Daily.remaining b == -722
       /\ Daily.percentage b <= 100.
Proof.
  assert (H1 : storeUp (Sample.atNoon Sample.noFailure ApiError))
    by (intros c; reflexivity).
  assert (H2 : Meals.NoDate <> Meals.InvalidDate) by discriminate.
  assert (H3 : Aggregate.goalsSet (Handler.db Sample.afterFeast)).
  { intros key row H. cbn in H.
    apply lookup_singleton_Some in H as [_ <-]. discriminate. }
  repeat split; try assumption.
  destruct (getSummary_remaining_and_clamped_percentage "u1" Meals.NoDate
              (Sample.atNoon Sample.noFailure ApiError) Sample.afterFeast
              H1 H2 H3) as (b & Hrun & Hrem & _ & _ & Hpct & Hrow & _).
  exists b. split; [exact Hrun |]. split; [| exact Hpct].
  destruct (Hrow Sample.feast) as [Hs Hg]; [reflexivity |].
  rewrite Hrem, Hs, Hg. reflexivity.
Defined.

(** C10: for a user whose targetCalories is unset, the goal is 2000: the
    DailySummary that creating a meal inserts for a day without one has
    goalCalories = 2000, and the daily handler, for a day without a
    DailySummary, answers goalCalories = 2000, remaining = 2000 and
    percentage = 0 instead of failing. *)
Theorem unset_target_defaults_to_2000 uid u e w :
  storeUp e ->
  users (Handler.db w) !! uid = Some u ->
  User.targetCalories u = None ->
  (forall body data,
     Meals.createMealSchema body = Some data ->
     dailySummaries (Handler.db w) !! (uid, Time.startOfDay (now e)) = None ->
     exists meal row w',
       Meals.POST (Some uid) (Some body) e w = (Ok 200 (meal, row), w')
       /\ dailySummaries (Handler.db w') !! (uid, Time.startOfDay (now e))
          = Some row
       /\ DailySummary.goalCalories row = 2000%Z)
  /\ (forall p,
        p <> Meals.InvalidDate ->
        dailySummaries (Handler.db w) !! (uid, requestedDay p e) = None ->
        exists b,
          Daily.GET (Some uid) p e w = (Ok 200 b, w)
          /\ Daily.goalCalories b = 2000%Z
          /\ Daily.totalCalories (Daily.spread b) = 0
          /\ Daily.remaining b == 2000
          /\ Daily.percentage b == 0).
Proof.
  intros Hup Hu Ht. split.
  - intros body data Hbody Hnone.
    pose proof (Meals_POST_stores uid body data u e w Hup Hbody Hu) as Hrun.
    cbv zeta in Hrun. rewrite Hnone in Hrun.
    do 3 eexists. split; [exact Hrun |]. cbn [Handler.db dailySummaries].
    split; [apply lookup_insert_eq |].
    cbn. rewrite Ht. reflexivity.
  - intros p Hp Hnone.
    pose proof (Daily_GET_answer uid p e w Hup Hp) as Hrun.
    cbv zeta in Hrun. rewrite Hnone, Hu in Hrun. cbn in Hrun.
    rewrite Ht in Hrun. cbn in Hrun.
    eexists. split; [apply Hrun; discriminate |]. cbn.
    repeat split; reflexivity.
Qed.

(** C10 for bob, who has no target, before anything is stored. *)
Lemma unset_target_defaults_to_2000_witness :
  storeUp (Sample.atNoon Sample.noFailure ApiError)
  /\ users (Handler.db Sample.fresh) !! "u2" = Some Sample.bob
  /\ User.targetCalories Sample.bob = None
  /\ (exists meal row w',
        Meals.POST (Some "u2") (Some (Sample.oatmeal None))
          (Sample.atNoon Sample.noFailure ApiError) Sample.fresh
        = (Ok 200 (meal, row), w')
        /\ DailySummary.goalCalories row = 2000%Z)
  /\ (exists b,
        Daily.GET (Some "u2") Meals.NoDate
          (Sample.atNoon Sample.noFailure ApiError) Sample.fresh
        = (Ok 200 b, Sample.fresh)
        /\ Daily.goalCalories b = 2000%Z
        /\ Daily.remaining b == 2000).
Proof.
  assert (H1 : storeUp (Sample.atNoon Sample.noFailure ApiError))
    by (intros c; reflexivity).
  assert (H2 : users (Handler.db Sample.fresh) !! "u2" = Some Sample.bob)
    by (vm_compute; reflexivity).
  assert (H3 : User.targetCalories Sample.bob = None) by reflexivity.
  destruct (unset_target_defaults_to_2000 "u2" Sample.bob
              (Sample.atNoon Sample.noFailure ApiError) Sample.fresh H1 H2 H3)
    as [Hpost Hget].
  repeat split; try assumption.
  - destruct (Hpost (Sample.oatmeal None) (Sample.oatmeal None))
      as (meal & row & w' & Hrun & _ & Hgoal);
      [vm_compute; reflexivity | reflexivity |].
    exists meal, row, w'. split; assumption.
  - destruct (Hget Meals.NoDate) as (b & Hrun & Hgoal & _ & Hrem & _);
      [discriminate | reflexivity |].
    exists b. repeat split; assumption.
Defined.

End DailyClaims.

(** ** Listing meals *)

Section ListClaims.

(** C9: for every user and every pair of filters (a date or none, a meal
    type or none, an empty parameter counting as none), the meals handler
    returns exactly the user's meals that the filters select, each as often as
    it is stored, in descending order of timestamp. *)
Theorem listMeals_selected_newest_first uid p mealType e w :
  storeUp e -> p <> Meals.InvalidDate ->
  exists ms,
    Meals.GET (Some uid) p mealType e w = (Ok 200 ms, w)
    /\ Permutation ms
         (List.filter
            (Aggregate.selected uid (dateFilter p)
               match mealType with
               | None | Some "" => None
               | Some ty => Some ty
               end)
            (meals (Handler.db w)))
    /\ StronglySorted Aggregate.newerFirst ms.
Proof.
  intros Hup Hp.
  assert (Hrun :
    Meals.GET (Some uid) p mealType e w
    = (Ok 200
         (Prisma.sortBy Meals.timestampDesc
            (List.filter
               (Meals.where_ uid
                  match p with
                  | Meals.DateOf t => Some (Time.startOfDay t, Time.endOfDay t)
                  | _ => None
                  end
                  (Meals.present mealType))
               (meals (Handler.db w)))), w)).
  { destruct p; [| contradiction |];
      unfold Meals.GET; handler_steps; rewrite Hup; reflexivity. }
  assert (Hty : Meals.present mealType
                = match mealType with
                  | None | Some "" => None
                  | Some ty => Some ty
                  end).
  { destruct mealType as [[| c ty] |]; reflexivity. }
  eexists. split; [exact Hrun |]. split.
  - rewrite sortBy_perm, <- Hty.
    erewrite filter_ext_eq; [reflexivity |].
    intros m. apply where_selected, Hp.
  - apply Sorted_StronglySorted.
    + intros a b c Hab Hbc. unfold Aggregate.newerFirst in *. lia.
    + eapply Sorted_ind with
        (P := fun l => Sorted Aggregate.newerFirst l);
        [constructor | | apply (sortBy_sorted Meals.timestampDesc)].
      * intros a l _ IH Hhd. constructor; [exact IH |].
        destruct Hhd as [| b l' Hab]; constructor.
        unfold Meals.timestampDesc in Hab. apply Z.leb_le in Hab. exact Hab.
      * apply timestampDesc_total.
Qed.

(** C9 in the sample diary, on 2023-11-14: under the type "breakfast" alice
    gets her breakfast of that day alone, not her lunch, not her breakfast of
    two days before, not bob's dinner; under an empty type she gets her lunch,
    then her breakfast. *)
Lemma listMeals_selected_newest_first_witness :
  let e := Sample.atNoon Sample.noFailure ApiError in
  let breakfast := Sample.entry "b" "u1" "breakfast" (Sample.noon - 14400000) 500 in
  let lunch := Sample.entry "d" "u1" "lunch" (Sample.noon - 3600000) 700 in
  storeUp e
  /\ Meals.DateOf Sample.noon <> Meals.InvalidDate
  /\ Meals.GET (Some "u1") (Meals.DateOf Sample.noon) (Some "breakfast") e
       Sample.diary
     = (Ok 200 [breakfast], Sample.diary)
  /\ Meals.GET (Some "u1") (Meals.DateOf Sample.noon) (Some "") e Sample.diary
     = (Ok 200 [lunch; breakfast], Sample.diary).
Proof.
  cbv zeta.
  assert (H1 : storeUp (Sample.atNoon Sample.noFailure ApiError))
    by (intros c; reflexivity).
  assert (H2 : Meals.DateOf Sample.noon <> Meals.InvalidDate) by discriminate.
  split; [exact H1 |]. split; [exact H2 |]. split.
  - destruct (listMeals_selected_newest_first "u1" (Meals.DateOf Sample.noon)
                (Some "breakfast") (Sample.atNoon Sample.noFailure ApiError)
                Sample.diary H1 H2) as (ms & Hrun & Hperm & _).
    rewrite Hrun. f_equal. f_equal.
    apply Permutation_sym, Permutation_length_1_inv in Hperm.
    exact Hperm.
  - destruct (listMeals_selected_newest_first "u1" (Meals.DateOf Sample.noon)
                (Some "") (Sample.atNoon Sample.noFailure ApiError)
                Sample.diary H1 H2) as (ms & Hrun & Hperm & Hsort).
    rewrite Hrun. f_equal. f_equal.
    apply Permutation_sym, Permutation_length_2_inv in Hperm.
    destruct Hperm as [-> | ->]; [| reflexivity].
    inversion Hsort as [| ? ? _ Hall]; subst.
    inversion Hall as [| ? ? Hlt _]; subst.
    vm_compute in Hlt. contradiction Hlt. reflexivity.
Defined.

End ListClaims.

(** ** Creating meals *)

Section CreateClaims.

Local Open Scope Q_scope.

(** C1 at a failing input: alice, with nothing stored, logs at noon of
    2023-11-14 a meal of 500 kcal eaten two days before.  The handler adds the
    500 kcal to the summary of 2023-11-14, a day without meals, and the day of
    the meal gets no summary: neither day's totals are the sum of its meals. *)
Theorem create_on_another_day_misplaces_totals :
  let e := Sample.atNoon Sample.noFailure ApiError in
  let data := Sample.oatmeal (Some Sample.noonTwoDaysBefore) in
  let out := Meals.POST (Some "u1") (Some data) e Sample.fresh in
  let mealDay := Time.startOfDay Sample.noonTwoDaysBefore in
  Aggregate.consistent (Handler.db Sample.fresh)
  /\ (exists row, fst out = Ok 200 (Meals.mealData "u1" data e, row))
  /\ Aggregate.total Meal.calories
       (Aggregate.mealsOn (Handler.db (snd out)) "u1" mealDay) == 500
  /\ dailySummaries (Handler.db (snd out)) !! ("u1", mealDay) = None
  /\ Aggregate.total Meal.calories
       (Aggregate.mealsOn (Handler.db (snd out)) "u1" Sample.midnight) == 0
  /\ Aggregate.recorded DailySummary.totalCalories (Handler.db (snd out))
       "u1" Sample.midnight == 500
  /\ ~ Aggregate.reflected (Handler.db (snd out)) "u1" mealDay
  /\ ~ Aggregate.reflected (Handler.db (snd out)) "u1" Sample.midnight
  /\ ~ Aggregate.consistent (Handler.db (snd out)).
Proof.
  cbv zeta.
  assert (Hday : ~ Aggregate.reflected
                     (Handler.db
                        (snd (Meals.POST (Some "u1")
                                (Some (Sample.oatmeal
                                         (Some Sample.noonTwoDaysBefore)))
                                (Sample.atNoon Sample.noFailure ApiError)
                                Sample.fresh)))
                     "u1" (Time.startOfDay Sample.noonTwoDaysBefore)).
  { intros [H _]. vm_compute in H. discriminate. }
  split; [apply consistent_without_rows |].
  split; [eexists; vm_compute; reflexivity |].
  split; [vm_compute; reflexivity |].
  split; [vm_compute; reflexivity |].
  split; [vm_compute; reflexivity |].
  split; [vm_compute; reflexivity |].
  split; [exact Hday |].
  split; [intros [H _]; vm_compute in H; discriminate |].
  intros H. exact (Hday (H "u1" Sample.noonTwoDaysBefore)).
Qed.

(** C2, the claim as the specification words it, at one request: alice logs
    a meal and the upsert of the summary throws.  The handler answers 500, the
    meal stays stored, and its day's totals do not count it. *)
Lemma failed_summary_update_leaves_meal_unreflected :
  let e := Sample.atNoon Sample.upsertFails ApiError in
  let data := Sample.oatmeal None in
  let out := Meals.POST (Some "u1") (Some data) e Sample.fresh in
  Aggregate.consistent (Handler.db Sample.fresh)
  /\ fst out = Error 500 "Failed to create meal"
  /\ meals (Handler.db (snd out)) = [Meals.mealData "u1" data e]
  /\ dailySummaries (Handler.db (snd out)) !! ("u1", Sample.midnight) = None
  /\ ~ Aggregate.reflected (Handler.db (snd out)) "u1" Sample.midnight.
Proof.
  cbv zeta.
  split; [apply consistent_without_rows |].
  split; [vm_compute; reflexivity |].
  split; [vm_compute; reflexivity |].
  split; [vm_compute; reflexivity |].
  intros [H _]. vm_compute in H. discriminate.
Qed.

(** C2, amended: during meal creation, if the upsert of the DailySummary
    throws after the meal write has succeeded, the handler answers 500 "Failed
    to create meal"; the meal write is neither retried nor rolled back: the
    meal stays stored and no DailySummary is changed. *)
Theorem failed_summary_update_keeps_meal uid body data u e w :
  Meals.createMealSchema body = Some data ->
  users (Handler.db w) !! uid = Some u ->
  fails e MealCreate = false ->
  fails e UserFindUnique = false ->
  fails e DailySummaryUpsert = true ->
  Meals.POST (Some uid) (Some body) e w
  = (Error 500 "Failed to create meal",
     {| Handler.db :=
          {| users := users (Handler.db w);
             meals := (meals (Handler.db w) ++ [Meals.mealData uid data e])%list;
             dailySummaries := dailySummaries (Handler.db w) |};
        Handler.sent := Handler.sent w |}).
Proof.
  intros Hbody Hu Hm Hr Hs. unfold Meals.POST. handler_steps.
  rewrite Hbody, Hm. cbn [Meals.mealData Meal.userId].
  rewrite Hu. cbn [Handler.db Handler.sent]. rewrite Hr, Hs. reflexivity.
Qed.

(** C2, amended, for alice's meal when the upsert throws. *)
Lemma failed_summary_update_keeps_meal_witness :
  let e := Sample.atNoon Sample.upsertFails ApiError in
  Meals.createMealSchema (Sample.oatmeal None) = Some (Sample.oatmeal None)
  /\ users (Handler.db Sample.fresh) !! "u1" = Some Sample.alice
  /\ fails e MealCreate = false
  /\ fails e UserFindUnique = false
  /\ fails e DailySummaryUpsert = true
  /\ Meals.POST (Some "u1") (Some (Sample.oatmeal None)) e Sample.fresh
     = (Error 500 "Failed to create meal",
        {| Handler.db :=
             {| users := users (Handler.db Sample.fresh);
                meals := [Meals.mealData "u1" (Sample.oatmeal None) e];
                dailySummaries := ∅ |};
           Handler.sent := [] |}).
Proof.
  cbv zeta.
  assert (H1 : Meals.createMealSchema (Sample.oatmeal None)
               = Some (Sample.oatmeal None)) by (vm_compute; reflexivity).
  assert (H2 : users (Handler.db Sample.fresh) !! "u1" = Some Sample.alice)
    by (vm_compute; reflexivity).
  split; [exact H1 |]. split; [exact H2 |]. do 3 (split; [reflexivity |]).
  exact (failed_summary_update_keeps_meal "u1" (Sample.oatmeal None)
           (Sample.oatmeal None) Sample.alice
           (Sample.atNoon Sample.upsertFails ApiError) Sample.fresh
           H1 H2 eq_refl eq_refl eq_refl).
Defined.

End CreateClaims.

(** ** Insights *)

Section InsightsClaims.

(** C4: for every user with fewer than five stored meals, the insights
    handler answers with status 200, the message that there is not enough
    data and an empty list of insights, and sends nothing to the
    text-generation provider. *)
Theorem insights_need_five_meals uid e w :
  storeUp e ->
  (length (List.filter (fun m => String.eqb (Meal.userId m) uid)
             (meals (Handler.db w))) < 5)%nat ->
  Insights.GET (Some uid) e w
  = (Ok 200
       (Insights.Message
          "Not enough data yet. Log at least 5 meals to get insights." []),
     w)
  /\ Handler.sent (snd (Insights.GET (Some uid) e w)) = Handler.sent w.
Proof.
  intros Hup Hfew.
  assert (Hrun :
    Insights.GET (Some uid) e w
    = (Ok 200
         (Insights.Message
            "Not enough data yet. Log at least 5 meals to get insights." []),
       w)).
  { unfold Insights.GET. handler_steps. cbv zeta. rewrite !Hup.
    match goal with
    | |- context [Nat.ltb (length ?l) 5] =>
        assert (Hlt : Nat.ltb (length l) 5 = true)
    end.
    { apply Nat.ltb_lt. rewrite sortBy_length.
      eapply Nat.le_lt_trans; [| exact Hfew].
      apply filter_length_weaken. intros m Hm.
      apply andb_true_iff in Hm. tauto. }
    rewrite Hlt. reflexivity. }
  rewrite Hrun. split; reflexivity.
Qed.

(** C4 for alice in the sample diary, who has three meals. *)
Lemma insights_need_five_meals_witness :
  storeUp (Sample.atNoon Sample.noFailure ApiError)
  /\ (length (List.filter (fun m => String.eqb (Meal.userId m) "u1")
                (meals (Handler.db Sample.diary))) < 5)%nat
  /\ Insights.GET (Some "u1") (Sample.atNoon Sample.noFailure ApiError)
       Sample.diary
     = (Ok 200
          (Insights.Message
             "Not enough data yet. Log at least 5 meals to get insights." []),
        Sample.diary)
  /\ Handler.sent
       (snd (Insights.GET (Some "u1")
               (Sample.atNoon Sample.noFailure ApiError) Sample.diary))
     = Handler.sent Sample.diary.
Proof.
  assert (H1 : storeUp (Sample.atNoon Sample.noFailure ApiError))
    by (intros c; reflexivity).
  assert (H2 : (length (List.filter (fun m => String.eqb (Meal.userId m) "u1")
                          (meals (Handler.db Sample.diary))) < 5)%nat)
    by (vm_compute; lia).
  split; [exact H1 |]. split; [exact H2 |].
  exact (insights_need_five_meals "u1"
           (Sample.atNoon Sample.noFailure ApiError) Sample.diary H1 H2).
Defined.

End InsightsClaims.

(** ** Nutrition estimates *)

Section AnalyzeClaims.

(** C5, the claim as the specification words it, at one request: the
    handler answers a provider that throws and a provider whose reply is not
    JSON with the same response, so the caller cannot tell the two failures
    apart. *)
Lemma analyze_upstream_and_malformed_alike :
  let body :=
    Some {| Analyze.description := "2 eggs scrambled with cheese";
            Analyze.quantity := None |} in
  let upstream := Sample.atNoon Sample.noFailure ApiError in
  let malformed :=
    Sample.atNoon Sample.noFailure (Content "Two eggs: about 200 kcal" None) in
  fst (Analyze.POST body upstream Sample.fresh) = Analyze.failure
  /\ fst (Analyze.POST body malformed Sample.fresh) = Analyze.failure
  /\ Analyze.POST body upstream Sample.fresh
     = Analyze.POST body malformed Sample.fresh.
Proof. vm_compute. repeat split; reflexivity. Qed.

(** C5, amended: the analyze handler returns a response whatever happens; it
    answers 200 with the estimate exactly when the request has a description,
    the provider replies a text that is not empty, is JSON and passes the
    schema; every other outcome (a provider that throws, a reply that is
    null, empty, not JSON or not of the schema, a request without
    description) gets the one response 500 "Failed to analyze food"; the
    store is never changed. *)
Theorem analyze_answers_every_failure_alike body e w :
  exists r w',
    Analyze.POST body e w = (r, w')
    /\ Handler.db w' = Handler.db w
    /\ (forall n,
          r = Ok 200 n <->
          exists req c text j,
            body = Some req
            /\ Analyze.description req <> ""
            /\ reply e = Content (String c text) (Some j)
            /\ Analyze.nutritionResponseSchema j = Some n)
    /\ ((forall n, r <> Ok 200 n) -> r = Analyze.failure).
Proof.
  unfold Analyze.POST, Analyze.failure. handler_steps.
  destruct body as [req |]; cbn; [| do 2 eexists; repeat split;
    [intros H; discriminate | intros (req & c & text & j & H & _); discriminate]].
  unfold Analyze.analyzeRequestSchema.
  destruct (Analyze.description req) as [| c0 d0] eqn:Hd; cbn.
  { do 2 eexists; repeat split; [intros H; discriminate |].
    intros (req' & c & text & j & H & Hne & _). injection H as <-.
    congruence. }
  unfold chatCompletion.
  destruct (reply e) as [| | text parsed] eqn:Hr; cbn.
  1, 2: do 2 eexists; repeat split; [intros H; discriminate |];
        intros (req' & c & text & j & _ & _ & H & _); discriminate.
  destruct text as [| c text]; cbn.
  { do 2 eexists; repeat split; [intros H; discriminate |].
    intros (req' & c & text & j & _ & _ & H & _). discriminate. }
  destruct parsed as [j |]; cbn.
  2: { do 2 eexists; repeat split; [intros H; discriminate |].
       intros (req' & c' & text' & j & _ & _ & H & _). discriminate. }
  destruct (Analyze.nutritionResponseSchema j) as [n |] eqn:Hs; cbn.
  - do 2 eexists. split; [reflexivity |]. split; [reflexivity |]. split.
    + intros n'. split.
      * intros H. injection H as <-.
        exists req, c, text, j. rewrite Hd. repeat split; congruence.
      * intros (req' & c' & text' & j' & _ & _ & H & Hs').
        injection H as <- <- <-. congruence.
    + intros H. exfalso. apply (H n). reflexivity.
  - do 2 eexists; repeat split; [intros H; discriminate |].
    intros (req' & c' & text' & j' & _ & _ & H & Hs').
    injection H as <- <- <-. congruence.
Qed.

End AnalyzeClaims.

(** ** Meal creation, case by case *)

Section CreationCases.

Local Open Scope list_scope.

Lemma world_eta (w : Handler.world) :
  {| Handler.db := Handler.db w; Handler.sent := Handler.sent w |} = w.
Proof. destruct w; reflexivity. Qed.

Lemma createMealSchema_Some b data :
  Meals.createMealSchema b = Some data <->
  Meals.description b <> "" /\ Meals.mealType b ∈ Meals.mealTypes /\ data = b.
Proof.
  unfold Meals.createMealSchema.
  destruct (Meals.description b) as [| c s] eqn:E.
  - split; [discriminate | intros (H & _); congruence].
  - case_bool_decide as Hin; split.
    + intros Hd. injection Hd as <-. repeat split; [discriminate | assumption].
    + intros (_ & _ & ->). reflexivity.
    + discriminate.
    + intros (_ & Hin' & _). contradiction.
Qed.

(** The handler ends in one of the four ways of [Journal.outcome]. *)
Lemma Meals_POST_outcome session body e w :
  Journal.outcome session body e w (Meals.POST session body e w).
Proof.
  unfold Meals.POST. handler_steps.
  destruct session as [uid |]; [| apply Journal.Unauthorized; reflexivity].
  destruct body as [b |];
    [| apply (Journal.Refused _ _ _ _ uid); [reflexivity | left; reflexivity]].
  destruct (Meals.createMealSchema b) as [data |] eqn:Hs;
    [| apply (Journal.Refused _ _ _ _ uid);
       [reflexivity | left; exact Hs]].
  destruct (fails e MealCreate) eqn:Hm;
    [apply (Journal.Refused _ _ _ _ uid); [reflexivity | right; left; exact Hm] |].
  cbn [Meals.mealData Meal.userId].
  destruct (users (Handler.db w) !! uid) as [u |] eqn:Hu;
    [| apply (Journal.Refused _ _ _ _ uid);
       [reflexivity | right; right; exact Hu]].
  cbn [Handler.db Handler.sent Prisma.withMeals users].
  destruct (fails e UserFindUnique) eqn:Hr.
  { apply (Journal.Orphaned _ _ _ _ uid b data u); auto. }
  destruct (fails e DailySummaryUpsert) eqn:Hup.
  { apply (Journal.Orphaned _ _ _ _ uid b data u); auto. }
  cbn [Handler.db Handler.sent Prisma.withMeals Prisma.withSummaries users
       meals dailySummaries].
  rewrite Hu.
  apply (Journal.Stored _ _ _ _ uid b data u); auto.
Qed.

End CreationCases.

(** ** Meal creation: answers, effects and what stays true *)

Section CreationFacts.

Local Open Scope list_scope.

Lemma startOfDay_idempotent (t : Z) :
  Time.startOfDay (Time.startOfDay t) = Time.startOfDay t.
Proof.
  unfold Time.startOfDay at 1. rewrite startOfDay_multiple. lia.
Qed.

(** X1: without a session the handler of meal creation answers 401; with
    one it answers 200 exactly when the body has a description that is not
    empty and one of the four meal types, the user exists and none of its three
    calls to the store throws; every other request, an invalid body included,
    is answered 500 "Failed to create meal". *)
Theorem create_meal_status session body e w :
  match session with
  | None => fst (Meals.POST session body e w) = Error 401 "Unauthorized"
  | Some uid =>
      (forall meal row,
         fst (Meals.POST session body e w) = Ok 200 (meal, row) <->
         exists b u,
           body = Some b
           /\ Meals.description b <> ""
           /\ Meals.mealType b ∈ Meals.mealTypes
           /\ users (Handler.db w) !! uid = Some u
           /\ fails e MealCreate = false
           /\ fails e UserFindUnique = false
           /\ fails e DailySummaryUpsert = false
           /\ meal = Meals.mealData uid b e
           /\ dailySummaries (Handler.db (snd (Meals.POST session body e w)))
                !! (uid, Time.startOfDay (now e)) = Some row)
      /\ ((forall meal row,
             fst (Meals.POST session body e w) <> Ok 200 (meal, row)) ->
          fst (Meals.POST session body e w)
          = Error 500 "Failed to create meal")
  end.
Proof.
  pose proof (Meals_POST_outcome session body e w) as Hout.
  destruct Hout as [Hs | uid Hs Hwhy | uid b data u Hs Hb Hd Hm Hu Hf
                   | uid b data u Hs Hb Hd Hm Hu Hr Hup today row]; subst session.
  - reflexivity.
  - split; [| reflexivity].
    intros meal row. split; [discriminate |].
    intros (b & u & -> & Hne & Hty & Hu & Hm & _).
    destruct Hwhy as [Hv | [Hv | Hv]]; [| congruence | congruence].
    cbn in Hv.
    assert (Hok : Meals.createMealSchema b = Some b)
      by (apply createMealSchema_Some; auto).
    congruence.
  - split; [| reflexivity].
    intros meal row. split; [discriminate |].
    intros (b' & u' & _ & _ & _ & _ & _ & Hr & Hup & _).
    destruct Hf; congruence.
  - apply createMealSchema_Some in Hd as (Hne & Hty & ->).
    split.
    + intros meal row'. cbn [fst snd Handler.db dailySummaries]. split.
      * intros H. injection H as <- <-. exists b, u.
        repeat split; auto. apply lookup_insert_eq.
      * intros (b' & u' & Hb' & _ & _ & _ & _ & _ & _ & -> & Hrow).
        rewrite Hb in Hb'. injection Hb' as <-.
        rewrite lookup_insert_eq in Hrow. injection Hrow as <-. reflexivity.
    + intros H. exfalso. eapply H. reflexivity.
Qed.

(** X2: whatever the request and the failures, creating a meal sends
    nothing to the provider, leaves the users alone, and keeps every stored meal
    in place, appending at most one meal, which is the requester's; it changes
    the summaries only when it answers 200; a request without session or with
    an invalid body changes nothing at all. *)
Theorem create_meal_effect session body e w :
  let out := Meals.POST session body e w in
  Handler.sent (snd out) = Handler.sent w
  /\ users (Handler.db (snd out)) = users (Handler.db w)
  /\ (exists added,
        meals (Handler.db (snd out)) = meals (Handler.db w) ++ added
        /\ (length added <= 1)%nat
        /\ forall m, In m added -> session = Some (Meal.userId m))
  /\ (dailySummaries (Handler.db (snd out)) <> dailySummaries (Handler.db w) ->
      exists meal row, fst out = Ok 200 (meal, row))
  /\ (session = None \/ body ≫= Meals.createMealSchema = None -> snd out = w).
Proof.
  cbv zeta.
  pose proof (Meals_POST_outcome session body e w) as Hout.
  destruct Hout as [Hs | uid Hs Hwhy | uid b data u Hs Hb Hd Hm Hu Hf
                   | uid b data u Hs Hb Hd Hm Hu Hr Hup today row];
    cbn [fst snd Handler.db Handler.sent users meals dailySummaries].
  - repeat split; try reflexivity; try congruence.
    exists []. rewrite app_nil_r. repeat split; [simpl; lia | intros m []].
  - repeat split; try reflexivity; try congruence.
    exists []. rewrite app_nil_r. repeat split; [simpl; lia | intros m []].
  - repeat split; try reflexivity; try congruence.
    + eexists. split; [reflexivity |]. split; [simpl; lia |].
      intros m [<- | []]. exact Hs.
    + intros [Hn | Hv]; [congruence |]. subst body. cbn in Hv. congruence.
  - repeat split; try reflexivity.
    + eexists. split; [reflexivity |]. split; [simpl; lia |].
      intros m [<- | []]. exact Hs.
    + intros _. eauto.
    + intros [Hn | Hv]; [congruence |]. subst body. cbn in Hv. congruence.
Qed.

End CreationFacts.

Section CreationInvariants.

Local Open Scope list_scope.
Local Open Scope Q_scope.

(** X3: a create that is answered 200 touches one summary, that of the
    requester's today, which it returns: every other summary is as before; a
    row that existed keeps its id, user, date and goalCalories, whatever the
    user's target is by now, and gains the macros of the meal; a row that did
    not exist starts with the macros of the meal and with the user's target,
    or 2000, as its goal. *)
Theorem create_meal_touches_todays_summary uid b e w meal row :
  fst (Meals.POST (Some uid) (Some b) e w) = Ok 200 (meal, row) ->
  let today := Time.startOfDay (now e) in
  let before := dailySummaries (Handler.db w) in
  let after :=
    dailySummaries
      (Handler.db (snd (Meals.POST (Some uid) (Some b) e w))) in
  after !! (uid, today) = Some row
  /\ (forall key, key <> (uid, today) -> after !! key = before !! key)
  /\ (forall old,
        before !! (uid, today) = Some old ->
        DailySummary.id row = DailySummary.id old
        /\ DailySummary.userId row = DailySummary.userId old
        /\ DailySummary.date row = DailySummary.date old
        /\ DailySummary.goalCalories row = DailySummary.goalCalories old
        /\ DailySummary.totalCalories row
           == DailySummary.totalCalories old + Meals.calories b
        /\ DailySummary.totalProtein row
           == DailySummary.totalProtein old + Meals.protein b
        /\ DailySummary.totalCarbs row
           == DailySummary.totalCarbs old + Meals.carbs b
        /\ DailySummary.totalFats row
           == DailySummary.totalFats old + Meals.fats b)
  /\ (before !! (uid, today) = None ->
      DailySummary.userId row = uid
      /\ DailySummary.date row = today
      /\ DailySummary.goalCalories row
         = Js.or_elseZ
             (users (Handler.db w) !! uid ≫= User.targetCalories) 2000
      /\ DailySummary.totalCalories row = Meals.calories b
      /\ DailySummary.totalProtein row = Meals.protein b
      /\ DailySummary.totalCarbs row = Meals.carbs b
      /\ DailySummary.totalFats row = Meals.fats b).
Proof.
  intros Hok today before after. subst today before after.
  pose proof (Meals_POST_outcome (Some uid) (Some b) e w) as Hout.
  destruct Hout as [Hs | uid' Hs Hwhy | uid' b' data u Hs Hb Hd Hm Hu Hf
                   | uid' b' data u Hs Hb Hd Hm Hu Hr Hup today row'];
    cbn [fst snd Handler.db dailySummaries] in *; try discriminate.
  injection Hs as <-. injection Hb as <-.
  apply createMealSchema_Some in Hd as (_ & _ & ->).
  injection Hok as _ <-. subst row' today.
  split; [apply lookup_insert_eq |].
  split; [intros key Hkey; apply lookup_insert_ne; congruence |].
  split.
  - intros old Hold. rewrite Hold. cbn. repeat split; reflexivity.
  - intros Hnone. rewrite Hnone, Hu. cbn. repeat split; reflexivity.
Qed.

(** X3 for alice's lunch after her breakfast: the day's row keeps its goal
    of 2278 and counts 1150 kcal. *)
Lemma create_meal_touches_todays_summary_witness :
  exists meal row,
    fst (Meals.POST (Some "u1") (Some Scenario.salad) Scenario.later
           Scenario.afterBreakfast) = Ok 200 (meal, row)
    /\ DailySummary.goalCalories row = 2278%Z
    /\ DailySummary.totalCalories row == 1150.
Proof.
  assert (Hrun :
    exists meal row,
      fst (Meals.POST (Some "u1") (Some Scenario.salad) Scenario.later
             Scenario.afterBreakfast) = Ok 200 (meal, row)).
  { do 2 eexists. vm_compute. reflexivity. }
  destruct Hrun as (meal & row & Hrun).
  exists meal, row. split; [exact Hrun |].
  destruct (create_meal_touches_todays_summary "u1" Scenario.salad
              Scenario.later Scenario.afterBreakfast meal row Hrun)
    as (_ & _ & Hold & _).
  destruct (Hold (Meals.summaryCreate "u1" Sample.midnight
                    (Sample.oatmeal None) (Some Sample.alice) Scenario.quiet))
    as (_ & _ & _ & Hg & Hc & _); [vm_compute; reflexivity |].
  split; [rewrite Hg; reflexivity | rewrite Hc; reflexivity].
Defined.

(** One request keeps the totals, when the timestamp of its meal is of the
    day the handler reads and the calls after the meal write do not throw. *)
Lemma creation_keeps_consistent (r : Journal.creation) w :
  Journal.datedToday r -> Journal.summaryCallsUp (Journal.served r) ->
  Aggregate.consistent (Handler.db w) ->
  Aggregate.consistent
    (Handler.db
       (snd (Meals.POST (Journal.session r) (Journal.body r)
               (Journal.served r) w))).
Proof.
  intros Hday [Hr Hup] Hcons.
  pose proof (Meals_POST_outcome (Journal.session r) (Journal.body r)
                (Journal.served r) w) as Hout.
  destruct Hout as [Hs | uid Hs Hwhy | uid b data u Hs Hb Hd Hm Hu Hf
                   | uid b data u Hs Hb Hd Hm Hu Hr' Hup' today row];
    cbn [snd Handler.db]; try exact Hcons.
  - destruct Hf; congruence.
  - apply createMealSchema_Some in Hd as (_ & _ & ->).
    assert (Hsame :
      Time.startOfDay
        (Meal.timestamp (Meals.mealData uid b (Journal.served r)))
      = Time.startOfDay (now (Journal.served r))).
    { exact (Hday b Hb). }
    intros uid' t. destruct (Hcons uid' t) as (H1 & H2 & H3 & H4).
    subst today row.
    repeat split.
    + apply (recorded_after_create uid b (Journal.served r) (Handler.db w)
               DailySummary.totalCalories Meal.calories Meals.calories);
        auto.
    + apply (recorded_after_create uid b (Journal.served r) (Handler.db w)
               DailySummary.totalProtein Meal.protein Meals.protein);
        auto.
    + apply (recorded_after_create uid b (Journal.served r) (Handler.db w)
               DailySummary.totalCarbs Meal.carbs Meals.carbs);
        auto.
    + apply (recorded_after_create uid b (Journal.served r) (Handler.db w)
               DailySummary.totalFats Meal.fats Meals.fats);
        auto.
Qed.

(** X29: the handler of meal creation reads the clock twice, once for the
    timestamp of a meal that carries none and once, after the meal is
    written, for the day of the summary.  When midnight falls between the
    two reads, alice's request from an empty store is answered 200, the meal
    of 500 kcal is stored on 2023-11-13, a day that gets no summary, and the
    500 kcal are put on record for 2023-11-14, a day without meals: the
    totals are no longer the sums of the meals. *)
Theorem create_across_midnight_misplaces_totals :
  let e := Scenario.acrossMidnight in
  let data := Sample.oatmeal None in
  let out := Meals.POST (Some "u1") (Some data) e Sample.fresh in
  let eve := (Sample.midnight - Time.msPerDay)%Z in
  Aggregate.consistent (Handler.db Sample.fresh)
  /\ (exists row, fst out = Ok 200 (Meals.mealData "u1" data e, row))
  /\ Meal.timestamp (Meals.mealData "u1" data e) = (Sample.midnight - 1)%Z
  /\ Time.startOfDay (Meal.timestamp (Meals.mealData "u1" data e)) = eve
  /\ Time.startOfDay (now e) = Sample.midnight
  /\ Aggregate.total Meal.calories
       (Aggregate.mealsOn (Handler.db (snd out)) "u1" eve) == 500
  /\ dailySummaries (Handler.db (snd out)) !! ("u1", eve) = None
  /\ Aggregate.total Meal.calories
       (Aggregate.mealsOn (Handler.db (snd out)) "u1" Sample.midnight) == 0
  /\ Aggregate.recorded DailySummary.totalCalories (Handler.db (snd out))
       "u1" Sample.midnight == 500
  /\ ~ Aggregate.reflected (Handler.db (snd out)) "u1" eve
  /\ ~ Aggregate.reflected (Handler.db (snd out)) "u1" Sample.midnight
  /\ ~ Aggregate.consistent (Handler.db (snd out)).
Proof.
  cbv zeta.
  assert (Hday : ~ Aggregate.reflected
                     (Handler.db
                        (snd (Meals.POST (Some "u1")
                                (Some (Sample.oatmeal None))
                                Scenario.acrossMidnight Sample.fresh)))
                     "u1" Sample.midnight).
  { intros [H _]. vm_compute in H. discriminate. }
  split; [apply consistent_without_rows |].
  split; [eexists; vm_compute; reflexivity |].
  do 7 (split; [vm_compute; reflexivity |]).
  split; [intros [H _]; vm_compute in H; discriminate |].
  split; [exact Hday |].
  intros H. apply Hday.
  exact (H "u1" Sample.midnight).
Qed.

(** One request keeps the shape of the summaries. *)
Lemma creation_keeps_shape session body e w :
  Aggregate.goalsSet (Handler.db w) /\ Journal.keyed (Handler.db w) ->
  Aggregate.goalsSet (Handler.db (snd (Meals.POST session body e w)))
  /\ Journal.keyed (Handler.db (snd (Meals.POST session body e w))).
Proof.
  intros [Hg Hk].
  pose proof (Meals_POST_outcome session body e w) as Hout.
  destruct Hout as [Hs | uid Hs Hwhy | uid b data u Hs Hb Hd Hm Hu Hf
                   | uid b data u Hs Hb Hd Hm Hu Hr Hup today row];
    cbn [snd Handler.db]; try (split; assumption).
  split.
  - intros key r. cbn [dailySummaries]. rewrite lookup_insert.
    case_decide as E; [| apply Hg].
    intros H. injection H as <-. subst row.
    destruct (dailySummaries (Handler.db w) !! (uid, today)) as [old |] eqn:Ho.
    + exact (Hg _ _ Ho).
    + apply or_elseZ_2000_nonzero.
  - intros uid' day' r. cbn [dailySummaries]. rewrite lookup_insert.
    case_decide as E; [| apply Hk].
    injection E as <- <-. intros H. injection H as <-. subst row.
    destruct (dailySummaries (Handler.db w) !! (uid, today)) as [old |] eqn:Ho.
    + destruct (Hk _ _ _ Ho) as (H1 & H2 & H3). cbn. auto.
    + cbn. repeat split. apply startOfDay_idempotent.
Qed.

(** X5: along any sequence of create requests whatever, accepted, refused
    or failing midway, every summary stays stored under its own user and date,
    its date a midnight, so that no two rows share user and date; and no
    summary has a goal of zero. *)
Theorem creations_keep_summaries_keyed (rs : list Journal.creation) w :
  Aggregate.goalsSet (Handler.db w) ->
  Journal.keyed (Handler.db w) ->
  let d := Handler.db (Journal.replay rs w) in
  Aggregate.goalsSet d
  /\ Journal.keyed d
  /\ forall k1 k2 r1 r2,
       dailySummaries d !! k1 = Some r1 ->
       dailySummaries d !! k2 = Some r2 ->
       DailySummary.userId r1 = DailySummary.userId r2 ->
       DailySummary.date r1 = DailySummary.date r2 ->
       k1 = k2.
Proof.
  intros Hg Hk. cbv zeta.
  assert (H : Aggregate.goalsSet (Handler.db (Journal.replay rs w))
              /\ Journal.keyed (Handler.db (Journal.replay rs w))).
  { revert w Hg Hk. induction rs as [| r rs IH]; intros w Hg Hk;
      [split; assumption |].
    cbn [Journal.replay].
    destruct (creation_keeps_shape (Journal.session r) (Journal.body r)
                (Journal.served r) w (conj Hg Hk)) as [Hg' Hk'].
    apply IH; assumption. }
  destruct H as [Hg' Hk']. split; [exact Hg' |]. split; [exact Hk' |].
  intros [u1 d1] [u2 d2] r1 r2 H1 H2 Hu Hd.
  destruct (Hk' _ _ _ H1) as (<- & <- & _).
  destruct (Hk' _ _ _ H2) as (<- & <- & _).
  congruence.
Qed.

(** X5 for the sample day, from the store without rows. *)
Lemma creations_keep_summaries_keyed_witness :
  Aggregate.goalsSet (Handler.db Sample.fresh)
  /\ Journal.keyed (Handler.db Sample.fresh)
  /\ Aggregate.goalsSet (Handler.db (Journal.replay Scenario.day Sample.fresh))
  /\ Journal.keyed (Handler.db (Journal.replay Scenario.day Sample.fresh)).
Proof.
  assert (H1 : Aggregate.goalsSet (Handler.db Sample.fresh)).
  { intros key row H. cbn in H. rewrite lookup_empty in H. discriminate. }
  assert (H2 : Journal.keyed (Handler.db Sample.fresh)).
  { intros uid day row H. cbn in H. rewrite lookup_empty in H. discriminate. }
  split; [exact H1 |]. split; [exact H2 |].
  destruct (creations_keep_summaries_keyed Scenario.day Sample.fresh H1 H2)
    as (Hg & Hk & _).
  split; assumption.
Defined.

End CreationInvariants.

(** ** Reading after writing *)

Section ReadFacts.

Local Open Scope list_scope.
Local Open Scope Q_scope.

(** The window of a [date] query parameter. *)
Lemma Meals_GET_answer uid p ty e w :
  fails e MealFindMany = false -> p <> Meals.InvalidDate ->
  Meals.GET (Some uid) p ty e w
  = (Ok 200
       (Prisma.sortBy Meals.timestampDesc
          (List.filter
             (Aggregate.selected uid (dateFilter p) (Meals.present ty))
             (meals (Handler.db w)))), w).
Proof.
  intros Hup Hp.
  rewrite <- (filter_ext_eq _ _ _ (fun m => where_selected uid p _ m Hp)).
  destruct p; [| contradiction |];
    unfold Meals.GET; handler_steps; rewrite Hup; reflexivity.
Qed.

Lemma total_perm (f : Meal.t -> Q) (l l' : list Meal.t) :
  Permutation l l' -> Aggregate.total f l == Aggregate.total f l'.
Proof.
  induction 1 as [| x l l' _ IH | x y l | l l' l'' _ IH1 _ IH2]; simpl.
  - reflexivity.
  - rewrite IH. reflexivity.
  - ring.
  - rewrite IH1. exact IH2.
Qed.

(** X6: the handlers that read never write: listing meals and reading the
    daily summary return the world as it was, whatever the session, the
    parameters and the failures; the insights handler leaves the store as it
    was and sends at most one request to the provider. *)
Theorem reads_leave_the_store session p ty e w :
  snd (Meals.GET session p ty e w) = w
  /\ snd (Daily.GET session p e w) = w
  /\ Handler.db (snd (Insights.GET session e w)) = Handler.db w
  /\ (Handler.sent (snd (Insights.GET session e w)) = Handler.sent w
      \/ exists r,
           Handler.sent (snd (Insights.GET session e w))
           = Handler.sent w ++ [r]).
Proof.
  split; [| split; [| split]].
  - unfold Meals.GET. handler_steps.
    destruct session; [| reflexivity].
    destruct p; try reflexivity; destruct (fails e MealFindMany); reflexivity.
  - unfold Daily.GET. handler_steps.
    destruct session; [| reflexivity].
    destruct (fails e UserFindUnique); [reflexivity |].
    destruct p; try reflexivity;
      destruct (fails e DailySummaryFindUnique); reflexivity.
  - unfold Insights.GET. handler_steps. cbv zeta.
    destruct session; [| reflexivity].
    destruct (fails e MealFindMany); [reflexivity |].
    destruct (fails e DailySummaryFindMany); [reflexivity |].
    destruct (fails e UserFindUnique); [reflexivity |].
    destruct (Nat.ltb _ 5); [reflexivity |].
    unfold chatCompletion.
    destruct (reply e) as [| | [| c t] [j |]]; reflexivity.
  - unfold Insights.GET. handler_steps. cbv zeta.
    destruct session; [| left; reflexivity].
    destruct (fails e MealFindMany); [left; reflexivity |].
    destruct (fails e DailySummaryFindMany); [left; reflexivity |].
    destruct (fails e UserFindUnique); [left; reflexivity |].
    destruct (Nat.ltb _ 5); [left; reflexivity |].
    unfold chatCompletion. right.
    destruct (reply e) as [| | [| c t] [j |]]; eexists; reflexivity.
Qed.

(** X7: in a store whose totals are the sums of the meals, the daily
    summary of a date reports, macro by macro, the sum over the meals that the
    listing of the same date returns. *)
Theorem daily_totals_sum_the_listing uid t e w :
  storeUp e ->
  Aggregate.goalsSet (Handler.db w) ->
  Aggregate.consistent (Handler.db w) ->
  exists ms b,
    Meals.GET (Some uid) (Meals.DateOf t) None e w = (Ok 200 ms, w)
    /\ Daily.GET (Some uid) (Meals.DateOf t) e w = (Ok 200 b, w)
    /\ Daily.totalCalories (Daily.spread b) == Aggregate.total Meal.calories ms
    /\ Daily.totalProtein (Daily.spread b) == Aggregate.total Meal.protein ms
    /\ Daily.totalCarbs (Daily.spread b) == Aggregate.total Meal.carbs ms
    /\ Daily.totalFats (Daily.spread b) == Aggregate.total Meal.fats ms.
Proof.
  intros Hup Hg Hcons.
  assert (Hp : Meals.DateOf t <> Meals.InvalidDate) by discriminate.
  pose proof (Daily_GET_answer uid (Meals.DateOf t) e w Hup Hp) as Hd.
  cbv zeta in Hd. cbn [requestedDay] in Hd.
  assert (Hsel :
    List.filter (Aggregate.selected uid (dateFilter (Meals.DateOf t))
                   (Meals.present None)) (meals (Handler.db w))
    = Aggregate.mealsOn (Handler.db w) uid (Time.startOfDay t)).
  { apply filter_ext_eq. intros m. unfold Aggregate.selected. cbn.
    rewrite andb_true_r. reflexivity. }
  pose proof (Meals_GET_answer uid (Meals.DateOf t) None e w (Hup _) Hp) as Hl.
  rewrite Hsel in Hl.
  destruct (Hcons uid t) as (H1 & H2 & H3 & H4).
  unfold Aggregate.recorded in H1, H2, H3, H4.
  destruct (dailySummaries (Handler.db w) !! (uid, Time.startOfDay t))
    as [row |] eqn:Hrow.
  - do 2 eexists. split; [exact Hl |].
    split; [apply Hd; exact (Hg _ _ Hrow) |]. cbn.
    rewrite !(total_perm _ _ _ (sortBy_perm _ _)). auto.
  - do 2 eexists. split; [exact Hl |].
    split; [apply Hd; apply or_elseZ_2000_nonzero |]. cbn.
    rewrite !(total_perm _ _ _ (sortBy_perm _ _)). auto.
Qed.

(** X7 on the day of alice's breakfast and lunch. *)
Lemma daily_totals_sum_the_listing_witness :
  let w := Journal.replay Scenario.day Sample.fresh in
  exists ms b,
    Meals.GET (Some "u1") (Meals.DateOf Sample.noon) None Scenario.later w
    = (Ok 200 ms, w)
    /\ Daily.GET (Some "u1") (Meals.DateOf Sample.noon) Scenario.later w
       = (Ok 200 b, w)
    /\ Daily.totalCalories (Daily.spread b) == Aggregate.total Meal.calories ms
    /\ length ms = 2%nat.
Proof.
  cbv zeta.
  assert (H1 : storeUp Scenario.later) by (intros c; reflexivity).
  assert (Hshape :
    Aggregate.goalsSet (Handler.db Sample.fresh)
    /\ Journal.keyed (Handler.db Sample.fresh)).
  { split; intros ? ?; cbn; rewrite lookup_empty; discriminate. }
  assert (H2 : Aggregate.goalsSet
                 (Handler.db (Journal.replay Scenario.day Sample.fresh))).
  { revert Hshape. generalize Sample.fresh. generalize Scenario.day.
    induction l as [| r rs IH]; intros w Hs; [apply Hs |].
    apply IH, creation_keeps_shape, Hs. }
  assert (H3 : Aggregate.consistent
                 (Handler.db (Journal.replay Scenario.day Sample.fresh))).
  { assert (Hall : Forall (fun r => Journal.datedToday r
                                   /\ Journal.summaryCallsUp (Journal.served r))
                     Scenario.day).
    { repeat constructor; intros b Hb; injection Hb as <-; reflexivity. }
    revert Hall. generalize (consistent_without_rows (users Sample.registered)).
    change {| users := users Sample.registered; meals := [];
              dailySummaries := ∅ |} with (Handler.db Sample.fresh).
    generalize Sample.fresh. generalize Scenario.day.
    induction l as [| r rs IH]; intros w Hc Hall; [exact Hc |].
    inversion Hall as [| ? ? [Hd Hu] Hrest]; subst.
    apply IH; [| exact Hrest]. apply creation_keeps_consistent; assumption. }
  destruct (daily_totals_sum_the_listing "u1" Sample.noon Scenario.later
              (Journal.replay Scenario.day Sample.fresh) H1 H2 H3)
    as (ms & b & Hl & Hd & Hc & _).
  exists ms, b. split; [exact Hl |]. split; [exact Hd |]. split; [exact Hc |].
  assert (Hms : fst (Meals.GET (Some "u1") (Meals.DateOf Sample.noon) None
                       Scenario.later
                       (Journal.replay Scenario.day Sample.fresh))
                = Ok 200 ms) by (rewrite Hl; reflexivity).
  vm_compute in Hms. injection Hms as <-. reflexivity.
Defined.

End ReadFacts.

Section WriteThenRead.

Local Open Scope list_scope.
Local Open Scope Q_scope.

(** The answer of the daily handler depends on the user's row and on the
    summary of the requested day alone. *)
Lemma Daily_GET_same uid p e w w' :
  users (Handler.db w') = users (Handler.db w) ->
  dailySummaries (Handler.db w') !! (uid, requestedDay p e)
  = dailySummaries (Handler.db w) !! (uid, requestedDay p e) ->
  fst (Daily.GET (Some uid) p e w') = fst (Daily.GET (Some uid) p e w).
Proof.
  intros Hu Hs. unfold Daily.GET. handler_steps.
  destruct (fails e UserFindUnique); [reflexivity |].
  destruct p as [| | t]; cbn [requestedDay] in Hs; try reflexivity;
    (destruct (fails e DailySummaryFindUnique); [reflexivity |]);
    rewrite Hu, Hs; reflexivity.
Qed.

(** X8: once a create is answered 200, every listing, of any user and with
    any filters, is the listing of before with the new meal added when, and
    only when, the filters select it; the owner's listing for the meal's own
    date and type holds it. *)
Theorem created_meal_joins_the_listings uid b e w meal row uid' p ty e' :
  fst (Meals.POST (Some uid) (Some b) e w) = Ok 200 (meal, row) ->
  fails e' MealFindMany = false ->
  p <> Meals.InvalidDate ->
  let w' := snd (Meals.POST (Some uid) (Some b) e w) in
  exists ms ms',
    Meals.GET (Some uid') p ty e' w = (Ok 200 ms, w)
    /\ Meals.GET (Some uid') p ty e' w' = (Ok 200 ms', w')
    /\ Permutation ms'
         (if Aggregate.selected uid' (dateFilter p) (Meals.present ty) meal
          then meal :: ms else ms)
    /\ (uid' = uid ->
        dateFilter p = Some (Meal.timestamp meal) ->
        ty = Some (Meal.mealType meal) ->
        In meal ms').
Proof.
  intros Hok Hup Hp w'. subst w'.
  pose proof (Meals_POST_outcome (Some uid) (Some b) e w) as Hout.
  destruct Hout as [Hs | uid0 Hs Hwhy | uid0 b0 data u Hs Hb Hd Hm Hu Hf
                   | uid0 b0 data u Hs Hb Hd Hm Hu Hr Hupd today row0];
    cbn [fst snd] in *; try discriminate.
  injection Hs as <-. injection Hb as <-.
  apply createMealSchema_Some in Hd as (Hne & Hty & ->).
  injection Hok as <- _.
  do 2 eexists.
  split; [apply Meals_GET_answer; assumption |].
  split; [apply Meals_GET_answer; assumption |].
  cbn [Handler.db meals]. rewrite List.filter_app. cbn [List.filter].
  split.
  - rewrite sortBy_perm.
    destruct (Aggregate.selected uid' (dateFilter p) (Meals.present ty)
                (Meals.mealData uid b e)).
    + rewrite sortBy_perm. symmetry. apply Permutation_cons_append.
    + rewrite app_nil_r, sortBy_perm. reflexivity.
  - intros -> Hdate ->.
    apply (Permutation_in _ (Permutation_sym (sortBy_perm _ _))).
    apply in_or_app. right.
    assert (Hsel :
      Aggregate.selected uid (dateFilter p)
        (Meals.present (Some (Meal.mealType (Meals.mealData uid b e))))
        (Meals.mealData uid b e) = true).
    { unfold Aggregate.selected. rewrite Hdate. cbn [Meals.mealData Meal.userId
        Meal.timestamp Meal.mealType].
      rewrite String.eqb_refl, Z.eqb_refl.
      destruct (Meals.mealType b) as [| c s] eqn:E.
      - exfalso.
        exact (bool_decide_eq_false_1 ("" ∈ Meals.mealTypes) eq_refl Hty).
      - cbn. rewrite Ascii.eqb_refl, String.eqb_refl. reflexivity. }
    rewrite Hsel. left. reflexivity.
Qed.

(** X8 for alice's lunch after her breakfast: bob's listing is unchanged
    and alice's lunches of the day hold the salad. *)
Lemma created_meal_joins_the_listings_witness :
  let post :=
    Meals.POST (Some "u1") (Some Scenario.salad) Scenario.later
      Scenario.afterBreakfast in
  exists meal row ms',
    fst post = Ok 200 (meal, row)
    /\ Meals.GET (Some "u1") (Meals.DateOf (now Scenario.later)) (Some "lunch")
         Scenario.later (snd post) = (Ok 200 ms', snd post)
    /\ In meal ms'.
Proof.
  cbv zeta.
  assert (Hrun :
    exists meal row,
      fst (Meals.POST (Some "u1") (Some Scenario.salad) Scenario.later
             Scenario.afterBreakfast) = Ok 200 (meal, row)
      /\ Meal.timestamp meal = now Scenario.later
      /\ Meal.mealType meal = "lunch").
  { do 2 eexists. vm_compute. repeat split; reflexivity. }
  destruct Hrun as (meal & row & Hrun & Hts & Hmt).
  destruct (created_meal_joins_the_listings "u1" Scenario.salad Scenario.later
              Scenario.afterBreakfast meal row "u1"
              (Meals.DateOf (now Scenario.later)) (Some "lunch")
              Scenario.later Hrun eq_refl ltac:(discriminate))
    as (ms & ms' & _ & Hafter & _ & Hin).
  exists meal, row, ms'. split; [exact Hrun |]. split; [exact Hafter |].
  apply Hin; [reflexivity | cbn; rewrite Hts; reflexivity
             | rewrite Hmt; reflexivity].
Defined.

(** X9: once a create is answered 200, the daily summary read for today,
    by the same user, shows the returned row: the totals that were on record
    plus the macros of the meal, and what remains of the row's goal; the daily
    summary of another user or day reads as before. *)
Theorem created_meal_shows_in_daily_summary uid b e w meal row e' :
  fst (Meals.POST (Some uid) (Some b) e w) = Ok 200 (meal, row) ->
  Aggregate.goalsSet (Handler.db w) ->
  storeUp e' ->
  let today := Time.startOfDay (now e) in
  let w' := snd (Meals.POST (Some uid) (Some b) e w) in
  (Time.startOfDay (now e') = today ->
   exists body,
     Daily.GET (Some uid) Meals.NoDate e' w' = (Ok 200 body, w')
     /\ Daily.spread body = Daily.Stored row
     /\ Daily.goalCalories body = DailySummary.goalCalories row
     /\ Daily.totalCalories (Daily.spread body)
        == Aggregate.recorded DailySummary.totalCalories (Handler.db w)
             uid today + Meals.calories b
     /\ Daily.remaining body
        == inject_Z (DailySummary.goalCalories row)
           - (Aggregate.recorded DailySummary.totalCalories (Handler.db w)
                uid today + Meals.calories b))
  /\ (forall uid' p,
        p <> Meals.InvalidDate ->
        (uid', requestedDay p e') <> (uid, today) ->
        fst (Daily.GET (Some uid') p e' w')
        = fst (Daily.GET (Some uid') p e' w)).
Proof.
  intros Hok Hg Hup today w'. subst today w'.
  pose proof (Meals_POST_outcome (Some uid) (Some b) e w) as Hout.
  destruct Hout as [Hs | uid0 Hs Hwhy | uid0 b0 data u Hs Hb Hd Hm Hu Hf
                   | uid0 b0 data u Hs Hb Hd Hm Hu Hr Hupd today row0];
    cbn [fst snd] in *; try discriminate.
  injection Hs as <-. injection Hb as <-.
  apply createMealSchema_Some in Hd as (Hne & Hty & ->).
  injection Hok as _ <-.
  split.
  - intros Hday.
    pose proof (Daily_GET_answer uid Meals.NoDate e'
                  {| Handler.db :=
                       {| users := users (Handler.db w);
                          meals := meals (Handler.db w)
                                   ++ [Meals.mealData uid b e];
                          dailySummaries :=
                            <[(uid, today) := row0]>
                              (dailySummaries (Handler.db w)) |};
                     Handler.sent := Handler.sent w |}
                  Hup ltac:(discriminate)) as Hd.
    cbv zeta in Hd. cbn [requestedDay Handler.db dailySummaries] in Hd.
    rewrite Hday in Hd. fold today in Hd. rewrite lookup_insert_eq in Hd.
    eexists. split.
    + apply Hd. cbn [Daily.summaryGoal].
      subst row0.
      destruct (dailySummaries (Handler.db w) !! (uid, today)) as [old |] eqn:Ho.
      * exact (Hg _ _ Ho).
      * apply or_elseZ_2000_nonzero.
    + cbn. unfold Aggregate.recorded. subst row0 today.
      destruct (dailySummaries (Handler.db w)
                  !! (uid, Time.startOfDay (now e))) as [old |];
        cbn [Daily.spread Daily.goalCalories Daily.remaining
             Daily.totalCalories Daily.summaryGoal Meals.incrementBy
             Meals.summaryCreate DailySummary.totalCalories
             DailySummary.goalCalories];
        repeat split; try reflexivity; ring.
  - intros uid' p Hp Hkey.
    apply Daily_GET_same; [reflexivity |].
    cbn [Handler.db dailySummaries]. apply lookup_insert_ne.
    intros E. apply Hkey. symmetry. exact E.
Qed.

(** X9 for alice's lunch after her breakfast: 1150 kcal of 2278, 1128 left. *)
Lemma created_meal_shows_in_daily_summary_witness :
  let post :=
    Meals.POST (Some "u1") (Some Scenario.salad) Scenario.later
      Scenario.afterBreakfast in
  exists meal row body,
    fst post = Ok 200 (meal, row)
    /\ Daily.GET (Some "u1") Meals.NoDate Scenario.later (snd post)
       = (Ok 200 body, snd post)
    /\ Daily.totalCalories (Daily.spread body) == 1150
    /\ Daily.remaining body == 1128.
Proof.
  cbv zeta.
  assert (Hrun :
    exists meal row,
      fst (Meals.POST (Some "u1") (Some Scenario.salad) Scenario.later
             Scenario.afterBreakfast) = Ok 200 (meal, row)
      /\ DailySummary.goalCalories row = 2278%Z).
  { do 2 eexists. vm_compute. split; reflexivity. }
  destruct Hrun as (meal & row & Hrun & Hgoal).
  assert (Hg : Aggregate.goalsSet (Handler.db Scenario.afterBreakfast)).
  { apply creation_keeps_shape.
    split; intros ? ?; cbn; rewrite lookup_empty; discriminate. }
  assert (Hup : storeUp Scenario.later) by (intros c; reflexivity).
  destruct (created_meal_shows_in_daily_summary "u1" Scenario.salad
              Scenario.later Scenario.afterBreakfast meal row Scenario.later
              Hrun Hg Hup) as [Htoday _].
  destruct (Htoday eq_refl) as (body & Hget & _ & _ & Htot & Hrem).
  exists meal, row, body. split; [exact Hrun |]. split; [exact Hget |].
  split; [rewrite Htot | rewrite Hrem, Hgoal]; vm_compute; reflexivity.
Defined.

End WriteThenRead.

(** ** Insights: the threshold and the request *)

Section InsightsFacts.

Local Open Scope list_scope.

(** The meals of a user since the midnight seven days before the request. *)
Lemma Insights_GET_answer uid e w :
  storeUp e ->
  let since := Time.startOfDay (Time.minusDays (now e) 7) in
  let recent :=
    List.filter
      (fun m => String.eqb (Meal.userId m) uid
                && Z.leb since (Meal.timestamp m))
      (meals (Handler.db w)) in
  let days :=
    Prisma.sortBy Insights.dateAsc
      (List.filter
         (fun d => String.eqb (DailySummary.userId d) uid
                   && Z.leb since (DailySummary.date d))
         (snd <$> map_to_list (dailySummaries (Handler.db w)))) in
  let asked :=
    {| Handler.db := Handler.db w;
       Handler.sent :=
         Handler.sent w
         ++ [Insights.insightsRequest (users (Handler.db w) !! uid) days] |} in
  Insights.GET (Some uid) e w
  = if Nat.ltb (length recent) 5
    then (Ok 200
            (Insights.Message
               "Not enough data yet. Log at least 5 meals to get insights."
               []), w)
    else
      match reply e with
      | Content (String c t) (Some j) => (Ok 200 (Insights.Generated j), asked)
      | _ => (Error 500 "Failed to generate insights", asked)
      end.
Proof.
  intros Hup since recent days asked.
  unfold Insights.GET. handler_steps. cbv zeta. rewrite !Hup.
  rewrite sortBy_length. fold since. fold recent.
  destruct (Nat.ltb (length recent) 5); [reflexivity |].
  unfold chatCompletion. fold days. fold asked.
  destruct (reply e) as [| | [| c t] [j |]]; reflexivity.
Qed.

Lemma sortBy_In {A} (leb : A -> A -> bool) (x : A) (l : list A) :
  In x (Prisma.sortBy leb l) <-> In x l.
Proof.
  split; apply Permutation_in;
    [apply sortBy_perm | symmetry; apply sortBy_perm].
Qed.

Lemma dateAsc_total (a b : DailySummary.t) :
  Insights.dateAsc a b = true \/ Insights.dateAsc b a = true.
Proof. unfold Insights.dateAsc. rewrite !Z.leb_le. lia. Qed.

(** X10: the insights handler counts the user's meals since the midnight
    seven days before the request, older meals not at all: it answers that
    there is not enough data exactly when fewer than five are that recent, and
    it calls the provider, once, exactly when five or more are. *)
Theorem insights_gate_counts_recent_meals uid e w :
  storeUp e ->
  let since := Time.startOfDay (Time.minusDays (now e) 7) in
  let recent :=
    List.filter
      (fun m => String.eqb (Meal.userId m) uid
                && Z.leb since (Meal.timestamp m))
      (meals (Handler.db w)) in
  ((length recent < 5)%nat <->
   fst (Insights.GET (Some uid) e w)
   = Ok 200
       (Insights.Message
          "Not enough data yet. Log at least 5 meals to get insights." []))
  /\ ((length recent < 5)%nat <->
      Handler.sent (snd (Insights.GET (Some uid) e w)) = Handler.sent w)
  /\ ((5 <= length recent)%nat <->
      exists r,
        Handler.sent (snd (Insights.GET (Some uid) e w))
        = Handler.sent w ++ [r]).
Proof.
  intros Hup since recent.
  rewrite (Insights_GET_answer uid e w Hup). cbv zeta.
  fold since. fold recent.
  destruct (Nat.ltb_spec (length recent) 5) as [Hlt | Hge].
  - cbn [fst snd]. repeat split; try (intros; assumption || reflexivity || lia).
    intros [r Hr]. apply (f_equal (@length _)) in Hr.
    rewrite length_app in Hr. cbn in Hr. lia.
  - assert (Hsent : forall x : response Insights.body * Handler.world,
              (exists k j, x = (k, {| Handler.db := Handler.db w;
                                      Handler.sent := Handler.sent w ++ [j] |})
                           /\ forall m l, k <> Ok 200 (Insights.Message m l)) ->
              (fst x = Ok 200
                         (Insights.Message
                            "Not enough data yet. Log at least 5 meals to get insights."
                            []) -> False)
              /\ (Handler.sent (snd x) = Handler.sent w -> False)
              /\ exists r, Handler.sent (snd x) = Handler.sent w ++ [r]).
    { intros x (k & j & -> & Hk). cbn [fst snd Handler.sent].
      split; [intros H; exact (Hk _ _ H) |]. split; [| eauto].
      intros H. apply (f_equal (@length _)) in H.
      rewrite length_app in H. cbn in H. lia. }
    match goal with
    | |- context [fst ?x] => destruct (Hsent x) as (H1 & H2 & H3)
    end.
    { destruct (reply e) as [| | [| c t] [j |]];
        do 2 eexists; (split; [reflexivity | intros; discriminate]). }
    repeat split; try (intros; lia || tauto || assumption).
Qed.

(** X10 for alice in the sample diary: two of her three meals are recent. *)
Lemma insights_gate_counts_recent_meals_witness :
  storeUp Scenario.quiet
  /\ (length
        (List.filter
           (fun m => String.eqb (Meal.userId m) "u1"
                     && Z.leb (Time.startOfDay
                                 (Time.minusDays (now Scenario.quiet) 7))
                          (Meal.timestamp m))
           (meals (Handler.db Sample.diary))) < 5)%nat
  /\ Handler.sent (snd (Insights.GET (Some "u1") Scenario.quiet Sample.diary))
     = Handler.sent Sample.diary.
Proof.
  assert (H1 : storeUp Scenario.quiet) by (intros c; reflexivity).
  split; [exact H1 |].
  destruct (insights_gate_counts_recent_meals "u1" Scenario.quiet Sample.diary
              H1) as (_ & Hsent & _).
  assert (Hlt : (length
        (List.filter
           (fun m => String.eqb (Meal.userId m) "u1"
                     && Z.leb (Time.startOfDay
                                 (Time.minusDays (now Scenario.quiet) 7))
                          (Meal.timestamp m))
           (meals (Handler.db Sample.diary))) < 5)%nat)
    by (vm_compute; lia).
  split; [exact Hlt |]. apply Hsent. exact Hlt.
Defined.

(** X11: with five recent meals or more, the request sent to the provider
    carries the user's summaries dated since the midnight seven days before,
    all of them and no other, oldest first; the handler answers 200 with
    whatever JSON value the provider's text parses to, unvalidated, and 500
    when the provider throws or its text is empty or is not JSON; the store is
    not changed. *)
Theorem insights_request_and_answer uid e w :
  storeUp e ->
  let since := Time.startOfDay (Time.minusDays (now e) 7) in
  (5 <= length
          (List.filter
             (fun m => String.eqb (Meal.userId m) uid
                       && Z.leb since (Meal.timestamp m))
             (meals (Handler.db w))))%nat ->
  exists days,
    Handler.sent (snd (Insights.GET (Some uid) e w))
    = Handler.sent w
      ++ [Insights.insightsRequest (users (Handler.db w) !! uid) days]
    /\ (forall d,
          In d days <->
          (exists key, dailySummaries (Handler.db w) !! key = Some d)
          /\ DailySummary.userId d = uid
          /\ since <= DailySummary.date d)
    /\ Sorted (fun a b => DailySummary.date a <= DailySummary.date b) days
    /\ Handler.db (snd (Insights.GET (Some uid) e w)) = Handler.db w
    /\ fst (Insights.GET (Some uid) e w)
       = match reply e with
         | Content (String c t) (Some j) => Ok 200 (Insights.Generated j)
         | _ => Error 500 "Failed to generate insights"
         end.
Proof.
  intros Hup since Hge.
  rewrite (Insights_GET_answer uid e w Hup). cbv zeta. fold since.
  apply Nat.ltb_ge in Hge. rewrite Hge.
  eexists. split; [| split; [| split; [| split]]].
  - destruct (reply e) as [| | [| c t] [j |]]; reflexivity.
  - intros d. rewrite sortBy_In.
    rewrite filter_In, andb_true_iff, String.eqb_eq, Z.leb_le.
    rewrite <- list_elem_of_In, list_elem_of_fmap.
    split.
    + intros [([key d'] & -> & Hin) Hrest].
      apply elem_of_map_to_list in Hin. split; [eauto | exact Hrest].
    + intros [[key Hkey] Hrest]. split; [| exact Hrest].
      exists (key, d). split; [reflexivity |].
      apply elem_of_map_to_list. exact Hkey.
  - eapply Sorted_ind with
      (P := fun l => Sorted (fun a b => DailySummary.date a
                                        <= DailySummary.date b) l);
      [constructor | | apply (sortBy_sorted Insights.dateAsc)].
    + intros a l _ IH Hhd. constructor; [exact IH |].
      destruct Hhd as [| b l' Hab]; constructor.
      unfold Insights.dateAsc in Hab. apply Z.leb_le in Hab. exact Hab.
    + apply dateAsc_total.
  - destruct (reply e) as [| | [| c t] [j |]]; reflexivity.
  - destruct (reply e) as [| | [| c t] [j |]]; reflexivity.
Qed.

(** X11 for alice after a busy week: the request carries her summaries of
    two days ago and of today, in that order, and the provider's empty object
    is answered as it is. *)
Lemma insights_request_and_answer_witness :
  exists days,
    Handler.sent (snd (Insights.GET (Some "u1") Scenario.answered Scenario.busy))
    = [Insights.insightsRequest (Some Sample.alice) days]
    /\ List.map DailySummary.id days = ["s2"; "s3"]
    /\ fst (Insights.GET (Some "u1") Scenario.answered Scenario.busy)
       = Ok 200 (Insights.Generated (JObj [])).
Proof.
  assert (H1 : storeUp Scenario.answered) by (intros c; reflexivity).
  destruct (insights_request_and_answer "u1" Scenario.answered Scenario.busy H1)
    as (days & Hsent & _ & _ & _ & Hres); [vm_compute; lia |].
  exists days. split; [exact Hsent |]. split; [| exact Hres].
  assert (Hd : List.map
                 (fun r => match userContent r with
                           | InsightsPrompt _ _ _ ds =>
                               List.map DailySummary.id ds
                           | _ => []
                           end)
                 (Handler.sent
                    (snd (Insights.GET (Some "u1") Scenario.answered
                            Scenario.busy)))
               = [List.map DailySummary.id days])
    by (rewrite Hsent; reflexivity).
  vm_compute in Hd. injection Hd as Hd. symmetry. exact Hd.
Defined.

End InsightsFacts.

(** ** The calculator: order, and inherited names *)

Section CalculatorFacts.

Local Open Scope Q_scope.
Import Tdee.





End CalculatorFacts.

Section InheritedNames.

(** X28: at an activity level or a goal that is a name every object inherits
    from Object.prototype, "constructor" or "toString" for instance, the
    calculator returns NaN whatever the number: the table gives a built-in,
    which is truthy, so the default is not taken. *)
Theorem inherited_name_gives_NaN (x : spec_float) (name : string) :
  name ∈ Binary64.objectPrototype ->
  Binary64.calculateTDEE x name = S754_nan
  /\ Binary64.calculateTargetCalories x name = S754_nan.
Proof.
  intros H. destruct (inherited_not_own name H) as [Hm Ha].
  unfold Binary64.calculateTDEE, Binary64.calculateTargetCalories,
    Binary64.get.
  rewrite Hm, Ha, bool_decide_eq_true_2 by exact H. split; reflexivity.
Qed.

(** X28 for the name "toString", at the scenarios of the specification. *)
Lemma inherited_name_gives_NaN_witness :
  ("toString" ∈ Binary64.objectPrototype)
  /\ Binary64.calculateTDEE (Binary64.decimal 17925 10) "toString" = S754_nan
  /\ Binary64.calculateTargetCalories (Binary64.ofZ 2778) "toString"
     = S754_nan.
Proof.
  assert (H : "toString" ∈ Binary64.objectPrototype).
  { apply (bool_decide_unpack _). vm_compute. exact I. }
  split; [exact H |].
  split.
  - exact (proj1 (inherited_name_gives_NaN (Binary64.decimal 17925 10)
                    "toString" H)).
  - exact (proj2 (inherited_name_gives_NaN (Binary64.ofZ 2778)
                    "toString" H)).
Defined.

End InheritedNames.

(** ** Nutrition estimates: the request and the reply *)

Section AnalyzeFacts.

Local Open Scope list_scope.

(** The handler, branch by branch. *)
Lemma Analyze_POST_answer body e w :
  Analyze.POST body e w
  = match body with
    | Some {| Analyze.description := String c d; Analyze.quantity := q |} =>
        let asked :=
          {| Handler.db := Handler.db w;
             Handler.sent :=
               Handler.sent w ++ [Analyze.analysisRequest (String c d) q] |} in
        match reply e with
        | Content (String _ _) (Some j) =>
            match Analyze.nutritionResponseSchema j with
            | Some n => (Ok 200 n, asked)
            | None => (Analyze.failure, asked)
            end
        | _ => (Analyze.failure, asked)
        end
    | _ => (Analyze.failure, w)
    end.
Proof.
  unfold Analyze.POST. handler_steps.
  destruct body as [[[| c d] q] |]; try reflexivity.
  cbn [Analyze.analyzeRequestSchema Analyze.description Analyze.quantity].
  unfold chatCompletion.
  destruct (reply e) as [| | [| c' t] [j |]]; try reflexivity.
  cbn [Analyze.responseText]. handler_steps.
  destruct (Analyze.nutritionResponseSchema j); reflexivity.
Qed.

Lemma field_skips_other_key k k' v (before after : list (string * json)) :
  k <> k' ->
  Analyze.field k' (before ++ (k, v) :: after)
  = Analyze.field k' (before ++ after).
Proof.
  intros Hne. induction before as [| [k0 v0] before IH]; cbn.
  - destruct (Analyze.field k' after); [reflexivity |].
    destruct (String.eqb_spec k' k); [congruence | reflexivity].
  - rewrite IH. reflexivity.
Qed.

(** X15: a field of the provider's object whose key is not one of the
    schema's nine is ignored, wherever it stands: the reply is accepted or
    refused, and read, as if the field were not there. *)
Theorem schema_ignores_other_keys k v (before after : list (string * json)) :
  k ∉ ["calories"; "protein"; "carbs"; "fats"; "fiber"; "sugar"; "sodium";
       "confidence"; "notes"] ->
  Analyze.nutritionResponseSchema (JObj (before ++ (k, v) :: after))
  = Analyze.nutritionResponseSchema (JObj (before ++ after)).
Proof.
  intros Hk.
  assert (Hf : forall k', k' ∈ ["calories"; "protein"; "carbs"; "fats"; "fiber";
                                "sugar"; "sodium"; "confidence"; "notes"] ->
                 Analyze.field k' (before ++ (k, v) :: after)
                 = Analyze.field k' (before ++ after)).
  { intros k' Hin. apply field_skips_other_key. intros ->. contradiction. }
  unfold Analyze.nutritionResponseSchema, Analyze.number,
    Analyze.numberOptional, Analyze.stringOptional, Analyze.confidenceEnum.
  rewrite !Hf by (repeat first [apply list_elem_of_here
                               | apply list_elem_of_further]).
  reflexivity.
Qed.

(** X15 for a reply that carries a key "vitamins" between its own. *)
Lemma schema_ignores_other_keys_witness :
  Analyze.nutritionResponseSchema
    (JObj [("calories", JNum 200); ("protein", JNum 12);
           ("vitamins", JArr []); ("carbs", JNum 2); ("fats", JNum 15);
           ("confidence", JStr "medium")])
  = Analyze.nutritionResponseSchema
      (JObj [("calories", JNum 200); ("protein", JNum 12);
             ("carbs", JNum 2); ("fats", JNum 15);
             ("confidence", JStr "medium")]).
Proof.
  apply (schema_ignores_other_keys "vitamins" (JArr [])
           [("calories", JNum 200); ("protein", JNum 12)]
           [("carbs", JNum 2); ("fats", JNum 15);
            ("confidence", JStr "medium")]).
  apply (bool_decide_eq_false_1
           ("vitamins" ∈ ["calories"; "protein"; "carbs"; "fats"; "fiber";
                          "sugar"; "sodium"; "confidence"; "notes"])).
  reflexivity.
Defined.

(** X16: a reply whose object gives an optional field a value of the wrong
    kind, [null] included, is refused like a reply that is not JSON: fiber,
    sugar or sodium that is not a number, or notes that is not a text, make
    the handler answer 500 "Failed to analyze food". *)
Theorem reply_with_null_optional_is_refused body e w text fs k v :
  reply e = Content text (Some (JObj fs)) ->
  Analyze.field k fs = Some v ->
  (k ∈ ["fiber"; "sugar"; "sodium"] /\ forall x, v <> JNum x)
  \/ (k = "notes" /\ forall s, v <> JStr s) ->
  fst (Analyze.POST body e w) = Analyze.failure.
Proof.
  intros Hr Hf Hbad.
  assert (Hs : Analyze.nutritionResponseSchema (JObj fs) = None).
  { unfold Analyze.nutritionResponseSchema.
    assert (Hopt :
      Analyze.numberOptional "fiber" fs = None
      \/ Analyze.numberOptional "sugar" fs = None
      \/ Analyze.numberOptional "sodium" fs = None
      \/ Analyze.stringOptional "notes" fs = None).
    { destruct Hbad as [[Hin Hv] | [-> Hv]].
      - repeat (apply elem_of_cons in Hin as [-> | Hin]);
          [left | right; left | right; right; left | inversion Hin];
          unfold Analyze.numberOptional; rewrite Hf;
          destruct v; try reflexivity; exfalso; eapply Hv; reflexivity.
      - right; right; right. unfold Analyze.stringOptional. rewrite Hf.
        destruct v; try reflexivity; exfalso; eapply Hv; reflexivity. }
    destruct (Analyze.number "calories" fs); [| reflexivity].
    destruct (Analyze.number "protein" fs); [| reflexivity].
    destruct (Analyze.number "carbs" fs); [| reflexivity].
    destruct (Analyze.number "fats" fs); [| reflexivity].
    destruct Hopt as [-> | [H | [H | H]]]; [reflexivity | | |].
    - destruct (Analyze.numberOptional "fiber" fs); [| reflexivity].
      rewrite H. reflexivity.
    - destruct (Analyze.numberOptional "fiber" fs); [| reflexivity].
      destruct (Analyze.numberOptional "sugar" fs); [| reflexivity].
      rewrite H. reflexivity.
    - destruct (Analyze.numberOptional "fiber" fs); [| reflexivity].
      destruct (Analyze.numberOptional "sugar" fs); [| reflexivity].
      destruct (Analyze.numberOptional "sodium" fs); [| reflexivity].
      destruct (Analyze.confidenceEnum "confidence" fs); [| reflexivity].
      rewrite H. reflexivity. }
  rewrite Analyze_POST_answer.
  destruct body as [[[| c d] q] |]; try reflexivity.
  cbv zeta. rewrite Hr. destruct text; [reflexivity |].
  rewrite Hs. reflexivity.
Qed.

(** X16 for a reply that is complete but for [fiber: null]. *)
Lemma reply_with_null_optional_is_refused_witness :
  let fs :=
    [("calories", JNum 200); ("protein", JNum 12); ("carbs", JNum 2);
     ("fats", JNum 15); ("fiber", JNull); ("confidence", JStr "high")] in
  let e := Sample.atNoon Sample.noFailure (Content "{...}" (Some (JObj fs))) in
  Analyze.field "fiber" fs = Some JNull
  /\ fst (Analyze.POST
            (Some {| Analyze.description := "2 eggs";
                     Analyze.quantity := None |}) e Sample.fresh)
     = Analyze.failure.
Proof.
  cbv zeta. split; [reflexivity |].
  eapply (reply_with_null_optional_is_refused _ _ _ "{...}" _ "fiber" JNull).
  - reflexivity.
  - reflexivity.
  - left. split; [apply list_elem_of_here | discriminate].
Defined.

(** X17: validation comes before the provider: a request without body or
    without description is answered without any call, the world unchanged; a
    request with a description costs exactly one call, with the JSON mode and
    the temperature 0.3, whatever the provider answers, and so also when the
    answer is then refused; and an empty quantity is the same request as no
    quantity. *)
Theorem analyze_calls_provider_once_per_request body e w :
  match body with
  | Some {| Analyze.description := String c d; Analyze.quantity := q |} =>
      exists r,
        Handler.sent (snd (Analyze.POST body e w)) = Handler.sent w ++ [r]
        /\ userContent r
           = AnalyzePrompt (String c d) (Analyze.promptQuantity q)
        /\ jsonObject r = true
        /\ (temperature r == 0.3)%Q
        /\ Analyze.POST
             (Some {| Analyze.description := String c d;
                      Analyze.quantity := Some "" |}) e w
           = Analyze.POST
               (Some {| Analyze.description := String c d;
                        Analyze.quantity := None |}) e w
  | _ => Analyze.POST body e w = (Analyze.failure, w)
  end.
Proof.
  rewrite !Analyze_POST_answer.
  destruct body as [[[| c d] q] |]; try reflexivity.
  cbv zeta. exists (Analyze.analysisRequest (String c d) q).
  split; [| repeat split; reflexivity].
  destruct (reply e) as [| | [| c' t] [j |]]; try reflexivity.
  destruct (Analyze.nutritionResponseSchema j); reflexivity.
Qed.

End AnalyzeFacts.

(** ** The mobile client: tokens and the auth store *)

Section ClientFacts.

Local Open Scope list_scope.
Import Client.

Lemma act_keeps_coherent (d : device) (a : action) :
  coherent (auth d) -> coherent (auth (act d a)).
Proof.
  unfold coherent. intros Hc.
  destruct a as [email password answer | | answer | m u answer]; cbn [act].
  - unfold login, send.
    destruct (answer email password (bearer (keychain d))) as [[tok usr] | st];
      cbn; [eexists; reflexivity | exact Hc].
  - cbn. split; reflexivity.
  - unfold checkAuth. destruct (keychain d) as [[| c t] |] eqn:Hk;
      try exact Hc.
    unfold send. rewrite Hk.
    destruct (answer (bearer (Some (String c t)))) as [usr | st]; cbn;
      [eexists; reflexivity | split; reflexivity].
  - exact Hc.
Qed.

(** X18: from the start of the application, whatever is done on the device
    and whatever the server answers, the auth store is authenticated only
    with a token, and when it is not authenticated it holds neither token nor
    user. *)
Theorem auth_store_stays_coherent (actions : list action) :
  coherent (auth (run actions start)).
Proof.
  unfold run.
  assert (H : forall d, coherent (auth d) ->
                        coherent (auth (fold_left act actions d))).
  { induction actions as [| a rest IH]; intros d Hd; [exact Hd |].
    cbn. apply IH, act_keeps_coherent, Hd. }
  apply H. unfold coherent. cbn. split; reflexivity.
Qed.

Lemma onRejected_other (status : option Z) (stored : option string) :
  status <> Some 401%Z -> onRejected status stored = stored.
Proof.
  intros Hne. destruct status as [z |]; [| reflexivity].
  unfold onRejected.
  destruct z as [| p | p]; try reflexivity.
  do 9 (destruct p as [p | p |]; try reflexivity).
  all: try (exfalso; apply Hne; reflexivity).
Qed.

Lemma act_keeps_agree (d : device) (a : action) :
  no401 a -> agree d -> agree (act d a).
Proof.
  unfold agree. intros Hn Ha.
  destruct a as [email password answer | | answer | m u answer]; cbn [act].
  - unfold login, send. cbn in Hn.
    destruct (answer email password (bearer (keychain d))) as [[tok usr] | st]
      eqn:E; cbn; [reflexivity |].
    intros Hauth. rewrite <- (Ha Hauth).
    apply onRejected_other. intros ->. exact (Hn _ E).
  - cbn. discriminate.
  - unfold checkAuth. destruct (keychain d) as [[| c t] |] eqn:Hk;
      [rewrite Hk; exact Ha | | rewrite Hk; exact Ha].
    unfold send. rewrite Hk.
    destruct (answer (bearer (Some (String c t)))) as [usr | st]; cbn;
      [reflexivity | discriminate].
  - unfold send. cbn in Hn.
    destruct (answer (bearer (keychain d))) as [[] | st] eqn:E; cbn;
      [exact Ha |].
    intros Hauth. rewrite <- (Ha Hauth).
    apply onRejected_other. intros ->. exact (Hn _ E).
Qed.

(** X19: as long as no login and no other request is answered 401, an
    authenticated auth store holds the very token that is in the secure store,
    whatever else happens: logins that succeed or fail, logouts, checks of the
    session that succeed or fail, requests. *)
Theorem stores_agree_without_401 (actions : list action) :
  Forall no401 actions -> agree (run actions start).
Proof.
  unfold run. intros Hall.
  assert (H : forall d, agree d -> agree (fold_left act actions d)).
  { induction Hall as [| a rest Ha _ IH]; intros d Hd; [exact Hd |].
    cbn. apply IH, act_keeps_agree; assumption. }
  apply H. unfold agree. cbn. discriminate.
Qed.

End ClientFacts.

Section ClientRoundTrips.

Local Open Scope list_scope.
Import Client.

(** X19 for an evening on the device: no answer is a 401. *)
Lemma stores_agree_without_401_witness :
  Forall no401 Trial.evening
  /\ agree (run Trial.evening start)
  /\ keychain (run Trial.evening start) = Some "t-42".
Proof.
  assert (H : Forall no401 Trial.evening).
  { repeat constructor; intros h; discriminate. }
  split; [exact H |].
  split; [exact (stores_agree_without_401 Trial.evening H) | reflexivity].
Defined.




Lemma act_keeps_logged_out (d : device) (a : action) :
  notLogin a ->
  keychain d = None -> auth d = loggedOut ->
  keychain (act d a) = None
  /\ auth (act d a) = loggedOut
  /\ (calls (act d a) = calls d
      \/ exists m u,
           calls (act d a)
           = calls d ++ [{| Client.method := m; Client.url := u;
                            authorization := None |}]).
Proof.
  intros Hn Hk Ha.
  destruct a as [email password answer | | answer | m u answer];
    cbn [act notLogin] in *; [contradiction | | |].
  - unfold logout. cbn. auto.
  - unfold checkAuth. rewrite Hk. auto.
  - unfold send. rewrite Hk. cbn.
    split; [destruct (answer None) as [x | st]; [reflexivity |];
            destruct st as [z |]; [| reflexivity]; unfold onRejected;
            repeat match goal with
                   | |- context [match ?p with _ => _ end] => destruct p
                   end; reflexivity |].
    split; [exact Ha | right; eauto].
Qed.

(** X22: after a logout, from any state and until the next login, the
    secure store has no token and the auth store is empty whatever is done and
    whatever the server answers, and every request leaves without
    Authorization header. *)
Theorem logged_out_until_login (actions : list action) (d : device) :
  Forall notLogin actions ->
  keychain (run actions (logout d)) = None
  /\ auth (run actions (logout d)) = loggedOut
  /\ exists sent,
       calls (run actions (logout d)) = calls d ++ sent
       /\ Forall (fun c => authorization c = None) sent.
Proof.
  intros Hall. unfold run.
  assert (H : forall d0,
    keychain d0 = None -> auth d0 = loggedOut ->
    keychain (fold_left act actions d0) = None
    /\ auth (fold_left act actions d0) = loggedOut
    /\ exists sent,
         calls (fold_left act actions d0) = calls d0 ++ sent
         /\ Forall (fun c => authorization c = None) sent).
  { induction Hall as [| a rest Ha _ IH]; intros d0 Hk Hauth.
    - cbn. repeat split; try assumption.
      exists []. rewrite app_nil_r. split; [reflexivity | constructor].
    - cbn [fold_left].
      destruct (act_keeps_logged_out d0 a Ha Hk Hauth) as (Hk' & Ha' & Hc).
      destruct (IH _ Hk' Ha') as (Hk'' & Ha'' & sent & Hs & Hf).
      split; [exact Hk'' |]. split; [exact Ha'' |].
      destruct Hc as [Hc | (m & u & Hc)]; rewrite Hs, Hc.
      + exists sent. split; [reflexivity | exact Hf].
      + eexists. rewrite <- app_assoc. split; [reflexivity |].
        constructor; [reflexivity | exact Hf]. }
  apply (H (logout d)); reflexivity.
Qed.

(** X22 for alice's device: logged in, logged out, then idle. *)
Lemma logged_out_until_login_witness :
  Forall notLogin Trial.idle
  /\ keychain Trial.loggedIn = Some "t-42"
  /\ keychain (run Trial.idle (logout Trial.loggedIn)) = None
  /\ auth (run Trial.idle (logout Trial.loggedIn)) = loggedOut.
Proof.
  assert (H : Forall notLogin Trial.idle) by (repeat constructor).
  destruct (logged_out_until_login Trial.idle Trial.loggedIn H)
    as (Hk & Ha & _).
  split; [exact H |]. split; [reflexivity |]. split; assumption.
Defined.



End ClientRoundTrips.

(** ** The web page *)

Section WebFacts.

Local Open Scope list_scope.
Import Web.

Lemma handleAll_app prompt (evs evs' : list formEvent) :
  handleAll prompt (evs ++ evs')
  = (fst (handleAll (fst (handleAll prompt evs)) evs'),
     snd (handleAll prompt evs)
     ++ snd (handleAll (fst (handleAll prompt evs)) evs')).
Proof.
  revert prompt. induction evs as [| ev evs IH]; intros prompt; cbn.
  - destruct (handleAll prompt evs'); reflexivity.
  - destruct (handle prompt ev) as [prompt' out].
    rewrite IH. destruct (handleAll prompt' evs) as [mid outs]. cbn.
    destruct (handleAll mid evs') as [final outs']. cbn.
    rewrite app_assoc. reflexivity.
Qed.

Lemma handleAll_length prompt (evs : list formEvent) :
  (length (snd (handleAll prompt evs))
   <= length (List.filter
                (fun ev => match ev with Change _ => true | Submit => false end)
                evs)
      + match prompt with "" => 0 | _ => 1 end)%nat
  /\ Forall (fun s => s <> "") (snd (handleAll prompt evs)).
Proof.
  revert prompt. induction evs as [| ev evs IH]; intros prompt; cbn.
  - split; [lia | constructor].
  - destruct ev as [value |]; cbn.
    + destruct (IH value) as [Hlen Hall].
      destruct (handleAll value evs) as [final outs]. cbn in *.
      split; [destruct value, prompt; lia | exact Hall].
    + destruct prompt as [| c s]; cbn.
      * destruct (IH "") as [Hlen Hall].
        destruct (handleAll "" evs) as [final outs]. cbn in *.
        split; [lia | exact Hall].
      * destruct (IH "") as [Hlen Hall].
        destruct (handleAll "" evs) as [final outs]. cbn in *.
        split; [lia | constructor; [discriminate | exact Hall]].
Qed.

(** X25: the form never submits an empty prompt; it submits a text at most
    once, since it empties the input on submitting: there are never more
    prompts submitted than texts typed, the one that was in the input at first
    counted in, and a second submit in a row submits nothing. *)
Theorem form_submits_a_text_once prompt (evs : list formEvent) :
  Forall (fun s => s <> "") (snd (handleAll prompt evs))
  /\ (length (snd (handleAll prompt evs))
      <= length (List.filter
                   (fun ev => match ev with Change _ => true | Submit => false end)
                   evs)
         + match prompt with "" => 0 | _ => 1 end)%nat
  /\ handleAll prompt (evs ++ [Submit; Submit])
     = handleAll prompt (evs ++ [Submit])
  /\ fst (handleAll prompt (evs ++ [Submit])) = "".
Proof.
  destruct (handleAll_length prompt evs) as [Hlen Hall].
  split; [exact Hall |]. split; [exact Hlen |].
  rewrite !handleAll_app.
  destruct (fst (handleAll prompt evs)) as [| c s]; cbn; split; reflexivity.
Qed.

Lemma submissions_online provider (outs : list string) p sent :
  snd (fold_left
         (fun st submitted => onSubmit submitted true provider (fst st) (snd st))
         outs (p, sent))
  = sent ++ List.map (fun s => chatRequestFor (Some s)) outs.
Proof.
  revert p sent. induction outs as [| s outs IH]; intros p sent;
    cbn [fold_left List.map fst snd].
  - rewrite app_nil_r. reflexivity.
  - destruct (onSubmit s true provider p sent) as [p' sent'] eqn:E.
    rewrite IH.
    assert (Hs : sent' = sent ++ [chatRequestFor (Some s)]).
    { unfold onSubmit, POST in E.
      destruct (provider (chatRequestFor (Some s))); injection E as _ <-;
        reflexivity. }
    rewrite Hs, <- app_assoc. reflexivity.
Qed.

(** X26: while the network is up, the provider gets one call for each
    prompt the form submits, in the order of submission, with the prompt as it
    was typed and the temperature 0, and no call with an empty prompt; the
    input ends as the form alone leaves it. *)
Theorem page_calls_provider_per_prompt prompt (evs : list formEvent)
    provider p sent :
  snd (visit prompt evs true provider p sent)
  = sent ++ List.map (fun s => chatRequestFor (Some s))
              (snd (handleAll prompt evs))
  /\ fst (fst (visit prompt evs true provider p sent))
     = fst (handleAll prompt evs)
  /\ Forall (fun c => chatUser c <> Some "" /\ chatUser c <> None
                      /\ (chatTemperature c == 0)%Q)
       (List.map (fun s => chatRequestFor (Some s))
          (snd (handleAll prompt evs))).
Proof.
  split; [| split].
  - revert prompt p sent. induction evs as [| ev evs IH]; intros prompt p sent.
    + cbn. rewrite app_nil_r. reflexivity.
    + cbn [visit handleAll].
      destruct (handle prompt ev) as [prompt' out].
      pose proof (submissions_online provider out p sent) as Hs.
      destruct (fold_left _ out (p, sent)) as [p' sent']. cbn [snd] in Hs.
      rewrite IH, Hs.
      destruct (handleAll prompt' evs) as [final outs]. cbn [snd].
      rewrite List.map_app, app_assoc. reflexivity.
  - revert prompt p sent. induction evs as [| ev evs IH]; intros prompt p sent.
    + reflexivity.
    + cbn [visit handleAll].
      destruct (handle prompt ev) as [prompt' out].
      destruct (fold_left _ out (p, sent)) as [p' sent'].
      rewrite IH. destruct (handleAll prompt' evs). reflexivity.
  - destruct (handleAll_length prompt evs) as [_ Hall].
    induction Hall as [| s outs Hs _ IH]; cbn; constructor; [| exact IH].
    cbn. split; [congruence |]. split; [discriminate | reflexivity].
Qed.

Lemma submissions_offline provider (outs : list string) p sent :
  fold_left
    (fun st submitted => onSubmit submitted false provider (fst st) (snd st))
    outs (p, sent)
  = ({| shown := shown p;
        isLoading := match outs with [] => isLoading p | _ => true end |},
     sent).
Proof.
  revert p. induction outs as [| s outs IH]; intros p;
    cbn [fold_left fst snd].
  - destruct p; reflexivity.
  - unfold onSubmit at 2. rewrite IH. cbn. destruct outs; reflexivity.
Qed.

(** X27: without network nothing reaches the provider and the choices on
    the page stay what they were, but the page is left loading as soon as one
    prompt is submitted, and it stays so whatever is typed or submitted
    next. *)
Theorem page_keeps_loading_without_network prompt (evs : list formEvent)
    provider p sent :
  let out := visit prompt evs false provider p sent in
  snd out = sent
  /\ shown (snd (fst out)) = shown p
  /\ isLoading (snd (fst out))
     = match snd (handleAll prompt evs) with
       | [] => isLoading p
       | _ => true
       end.
Proof.
  cbv zeta. revert prompt p.
  induction evs as [| ev evs IH]; intros prompt p.
  - repeat split.
  - cbn [visit handleAll].
    destruct (handle prompt ev) as [prompt' out].
    rewrite submissions_offline.
    destruct (IH prompt'
                {| shown := shown p;
                   isLoading := match out with
                                | [] => isLoading p
                                | _ => true
                                end |}) as (H1 & H2 & H3).
    rewrite H1, H2, H3.
    destruct (handleAll prompt' evs) as [final outs]. cbn.
    repeat split. destruct out, outs; reflexivity.
Qed.

End WebFacts.
